(** * Form state and validation of the screen templates

    A shallow embedding of the validation and submission logic of
    [src/templates/screens/FormScreen.tsx] and
    [src/templates/screens/LoginScreen.tsx], and the properties the
    specification states about it.

    Layout: the embedding first (JavaScript strings and regular
    expressions, the effect monad of the event handlers, the two screens,
    the rule table of the specification), then the lemmas and theorems. *)

From Stdlib Require Import List NArith ZArith Bool String Ascii Lia.
From Stdlib Require Import DecimalString DecimalZ.
Import ListNotations.

Set Implicit Arguments.

(* ================================================================== *)
(** * JavaScript strings and regular expressions *)
(* ================================================================== *)

Module JS.

(** A JavaScript string is a sequence of UTF-16 code units; [s.length]
    is the number of code units. *)
Definition jsstring := list N.

(** An ASCII literal of the source, as code units. *)
Definition lit (s : string) : jsstring :=
  map N_of_ascii (list_ascii_of_string s).

(** [!s] on a string: only the empty string is falsy. *)
Definition truthy (s : jsstring) : bool :=
  match s with [] => false | _ :: _ => true end.

(** WhiteSpace and LineTerminator code units of ECMAScript: the set
    removed by [trim()] and matched by [\s]. *)
Definition is_ws (c : N) : bool :=
  ((9 <=? c) && (c <=? 13) ||
   (c =? 32) || (c =? 160) || (c =? 5760) ||
   (8192 <=? c) && (c <=? 8202) ||
   (c =? 8232) || (c =? 8233) || (c =? 8239) || (c =? 8287) ||
   (c =? 12288) || (c =? 65279))%N.

(** [\d]: the ten ASCII digits. *)
Definition is_digit (c : N) : bool := ((48 <=? c) && (c <=? 57))%N.

Fixpoint trimStart (s : jsstring) : jsstring :=
  match s with
  | c :: s' => if is_ws c then trimStart s' else s
  | [] => []
  end.

Definition trimEnd (s : jsstring) : jsstring := rev (trimStart (rev s)).

Definition trim (s : jsstring) : jsstring := trimEnd (trimStart s).

(** ** Character classes *)

Inductive cls : Type :=
| CChar (c : N)          (* a literal character *)
| CDigit                 (* \d *)
| CSpace                 (* \s *)
| CUnion (a b : cls)     (* [ab] *)
| CNeg (a : cls).        (* [^a], \D *)

Fixpoint cls_mem (k : cls) (c : N) : bool :=
  match k with
  | CChar x => (c =? x)%N
  | CDigit => is_digit c
  | CSpace => is_ws c
  | CUnion a b => cls_mem a c || cls_mem b c
  | CNeg a => negb (cls_mem a c)
  end.

(** ** Patterns

    The patterns of the source are sequences of quantified character
    classes, some of them inside a capturing group, between [^] and [$]
    (no flag [m]: the anchors are the ends of the input). *)

Inductive re : Type :=
| Bol                                      (* ^ *)
| Eol                                      (* $ *)
| Rep (k : cls) (lo : nat) (hi : option nat) (* k{lo,hi}, greedy; hi = None: no bound *)
| Grp (i : nat) (r : re)                   (* the i-th capturing group *)
| Seq (r1 r2 : re).

Definition one (k : cls) : re := Rep k 1 (Some 1).        (* k *)
Definition opt (k : cls) : re := Rep k 0 (Some 1).        (* k? *)
Definition plus (k : cls) : re := Rep k 1 None.           (* k+ *)
Definition times (k : cls) (n : nat) : re := Rep k n (Some n).       (* k{n} *)
Definition range (k : cls) (n m : nat) : re := Rep k n (Some m).     (* k{n,m} *)

Fixpoint seq (rs : list re) (last : re) : re :=
  match rs with
  | [] => last
  | r :: rs' => Seq r (seq rs' last)
  end.

(** The state of a match: the index reached, the input from there on and
    the captures recorded so far (the most recent first). *)
Record mstate : Type := MState {
  pos : nat;
  rest : jsstring;
  caps : list (nat * jsstring)
}.

Section Matcher.
Variable R : Type.

(** [k{lo,hi}] from index [n] on input [s]: greedy, one more character
    is tried first and the matcher backtracks to stopping here when
    the continuation fails. *)
Fixpoint rep (k : cls) (lo : nat) (hi : option nat) (n : nat)
         (s : jsstring) (cont : nat -> jsstring -> option R) {struct s}
  : option R :=
  let stop := if (lo =? 0)%nat then cont n s else None in
  match hi with
  | Some O => stop
  | _ =>
    match s with
    | c :: s' =>
      if cls_mem k c then
        match rep k (Nat.pred lo) (option_map Nat.pred hi) (S n) s' cont with
        | Some x => Some x
        | None => stop
        end
      else stop
    | [] => stop
    end
  end.

(** The backtracking matcher, in continuation-passing style as in the
    ECMAScript definition. *)
Fixpoint match_re (r : re) (st : mstate) (cont : mstate -> option R)
  : option R :=
  match r with
  | Bol => if (pos st =? 0)%nat then cont st else None
  | Eol => match rest st with [] => cont st | _ :: _ => None end
  | Rep k lo hi =>
    rep k lo hi (pos st) (rest st)
        (fun n s => cont (MState n s (caps st)))
  | Grp i r' =>
    match_re r' st
      (fun st' =>
         cont (MState (pos st') (rest st')
                      ((i, firstn (pos st' - pos st) (rest st)) :: caps st')))
  | Seq r1 r2 => match_re r1 st (fun st' => match_re r2 st' cont)
  end.
End Matcher.

(** [RegExp.prototype.exec] without flags: the first index, from 0 on, at
    which the pattern matches. *)
Fixpoint exec_from (r : re) (n : nat) (s : jsstring) : option mstate :=
  match match_re r (MState n s []) (@Some mstate) with
  | Some st => Some st
  | None =>
    match s with
    | [] => None
    | _ :: s' => exec_from r (S n) s'
    end
  end.

Definition exec (r : re) (s : jsstring) : option mstate := exec_from r 0 s.

(** [r.test(s)] *)
Definition test (r : re) (s : jsstring) : bool :=
  match exec r s with Some _ => true | None => false end.

(** [m[i]] on the result of a match: the capture, or [undefined]. *)
Fixpoint assoc (i : nat) (l : list (nat * jsstring)) : option jsstring :=
  match l with
  | [] => None
  | (j, v) :: l' => if (i =? j)%nat then Some v else assoc i l'
  end.

Definition group (m : mstate) (i : nat) : option jsstring := assoc i (caps m).

(** A value substituted in a template literal. *)
Definition subst (v : option jsstring) : jsstring :=
  match v with
  | Some s => s
  | None => lit "undefined"
  end.

(** [s.replace(/k/g, '')] for a one-character class [k]: every code unit
    of the class is deleted. *)
Definition delete_all (k : cls) (s : jsstring) : jsstring :=
  filter (fun c => negb (cls_mem k c)) s.

End JS.

(* ================================================================== *)
(** * Effects of the event handlers *)
(* ================================================================== *)

(** The handlers update the component state through the setters of
    [useState], call collaborators that live outside the component (the
    alert box, the timer, the injected callback) and may throw.  A handler
    is a state transformer over the component state and the trace of the
    external calls made so far, returning a value or a thrown error. *)

Module Eff.

(** A button of an alert box and what pressing it does. *)
Inductive callback : Type := GoBack.

Record button : Type := Button { text : string; onPress : option callback }.

(** The calls that leave the component; [P] is what the injected
    callback is given. *)
Inductive event (P : Type) : Type :=
| Alert (title message : string) (buttons : list button)
| SetTimeout (ms : N)
| Invoke (payload : P).

Arguments Alert {P} title message buttons.
Arguments SetTimeout {P} ms.

(** How a call of the injected callback ends. *)
Inductive outcome : Type := Returns | Throws.

Inductive result (A : Type) : Type :=
| Ok (a : A)
| Thrown.

Arguments Thrown {A}.

Section Monad.
Variables St P : Type.

Record world : Type := World { store : St; trace : list (event P) }.

Definition M (A : Type) : Type := world -> result A * world.

Definition ret {A} (a : A) : M A := fun w => (Ok a, w).

Definition bind {A B} (m : M A) (f : A -> M B) : M B :=
  fun w =>
    match m w with
    | (Ok a, w') => f a w'
    | (Thrown, w') => (Thrown, w')
    end.

Definition gets {A} (f : St -> A) : M A := fun w => (Ok (f (store w)), w).

Definition modify (f : St -> St) : M unit :=
  fun w => (Ok tt, World (f (store w)) (trace w)).

Definition emit (e : event P) : M unit :=
  fun w => (Ok tt, World (store w) (trace w ++ [e])).

Definition throw {A} : M A := fun w => (Thrown, w).

(** [callback(payload)]: the call is made, then it returns or throws. *)
Definition invoke (f : P -> outcome) (p : P) : M unit :=
  bind (emit (Invoke p))
       (fun _ => match f p with Returns => ret tt | Throws => throw end).

(** [try { body } catch (error) { handler }] *)
Definition try_catch (body handler : M unit) : M unit :=
  fun w =>
    match body w with
    | (Ok a, w') => (Ok a, w')
    | (Thrown, w') => handler w'
    end.

(** [try { body } finally { fin }] *)
Definition try_finally (body fin : M unit) : M unit :=
  fun w =>
    match body w with
    | (Ok a, w') => fin w'
    | (Thrown, w') =>
      match fin w' with
      | (Ok _, w'') => (Thrown, w'')
      | (Thrown, w'') => (Thrown, w'')
      end
    end.

(** How often the injected callback was called in a trace. *)
Fixpoint invocations (t : list (event P)) : nat :=
  match t with
  | [] => 0
  | Invoke _ :: t' => S (invocations t')
  | _ :: t' => invocations t'
  end.
End Monad.

Arguments ret {St P A} a.
Arguments gets {St P A} f.
Arguments throw {St P A}.
Arguments emit {St P} e.
Arguments modify {St P} f.

Module Notations.
Notation "x <- m ;; k" := (bind m (fun x => k))
  (at level 61, m at next level, right associativity).
Notation "m ;; k" := (bind m (fun _ => k))
  (at level 61, right associativity).
End Notations.

End Eff.

(* ================================================================== *)
(** * FormScreen.tsx *)
(* ================================================================== *)

Module FormScreen.
Import JS Eff Eff.Notations.
Local Open Scope string_scope.

(** A valid [Date], by the calendar fields of its local time.  An Invalid
    Date, whose [getFullYear()] is [NaN], is not among these values: a
    property stated over [Date] says nothing about it. *)
Record Date : Type := MkDate { fullYear : Z; month : Z; day : Z }.

Definition getFullYear (d : Date) : Z := fullYear d.

Record FormData : Type := MkFormData {
  firstName : jsstring;
  lastName : jsstring;
  email : jsstring;
  phone : jsstring;
  birthDate : Date;
  gender : jsstring;
  country : jsstring;
  bio : jsstring;
  notifications : bool;
  newsletter : bool
}.

(** [interface FormErrors]: every field is optional; a field that is not
    set and a field set to [undefined] both read as [undefined]. *)
Module FormErrors.
Record t : Type := Mk {
  firstName : option string;
  lastName : option string;
  email : option string;
  phone : option string;
  birthDate : option string;
  country : option string;
  bio : option string
}.

(** [{}] *)
Definition empty : t := Mk None None None None None None None.

Definition set_firstName (v : option string) (e : t) : t :=
  Mk v (lastName e) (email e) (phone e) (birthDate e) (country e) (bio e).
Definition set_lastName (v : option string) (e : t) : t :=
  Mk (firstName e) v (email e) (phone e) (birthDate e) (country e) (bio e).
Definition set_email (v : option string) (e : t) : t :=
  Mk (firstName e) (lastName e) v (phone e) (birthDate e) (country e) (bio e).
Definition set_phone (v : option string) (e : t) : t :=
  Mk (firstName e) (lastName e) (email e) v (birthDate e) (country e) (bio e).
Definition set_birthDate (v : option string) (e : t) : t :=
  Mk (firstName e) (lastName e) (email e) (phone e) v (country e) (bio e).
Definition set_country (v : option string) (e : t) : t :=
  Mk (firstName e) (lastName e) (email e) (phone e) (birthDate e) v (bio e).
Definition set_bio (v : option string) (e : t) : t :=
  Mk (firstName e) (lastName e) (email e) (phone e) (birthDate e) (country e) v.
End FormErrors.

(** [Partial<FormData>], the type of the property [initialData]. *)
Module Partial.
Record t : Type := Mk {
  firstName : option jsstring;
  lastName : option jsstring;
  email : option jsstring;
  phone : option jsstring;
  birthDate : option Date;
  gender : option jsstring;
  country : option jsstring;
  bio : option jsstring;
  notifications : option bool;
  newsletter : option bool
}.
End Partial.

(** The state of the component: its four [useState] cells. *)
Record State : Type := MkState {
  formData : FormData;
  errors : FormErrors.t;
  showDatePicker : bool;
  isLoading : bool
}.

Definition setFormData (f : FormData -> FormData) (st : State) : State :=
  MkState (f (formData st)) (errors st) (showDatePicker st) (isLoading st).
Definition setErrors (f : FormErrors.t -> FormErrors.t) (st : State) : State :=
  MkState (formData st) (f (errors st)) (showDatePicker st) (isLoading st).
Definition setShowDatePicker (b : bool) (st : State) : State :=
  MkState (formData st) (errors st) b (isLoading st).
Definition setIsLoading (b : bool) (st : State) : State :=
  MkState (formData st) (errors st) (showDatePicker st) b.

(** [initialData?.f || ''] *)
Definition or_empty (initialData : option Partial.t)
           (f : Partial.t -> option jsstring) : jsstring :=
  match initialData with
  | Some p => match f p with
              | Some s => if truthy s then s else []
              | None => []
              end
  | None => []
  end.

(** [initialData?.f || false] *)
Definition or_false (initialData : option Partial.t)
           (f : Partial.t -> option bool) : bool :=
  match initialData with
  | Some p => match f p with
              | Some b => if b then b else false
              | None => false
              end
  | None => false
  end.

(** The initial state; [now] is the value of [new Date()] when the
    component is first rendered. *)
Definition initialState (initialData : option Partial.t) (now : Date) : State :=
  MkState
    (MkFormData
       (or_empty initialData Partial.firstName)
       (or_empty initialData Partial.lastName)
       (or_empty initialData Partial.email)
       (or_empty initialData Partial.phone)
       (match initialData with
        | Some p => match Partial.birthDate p with
                    | Some d => d
                    | None => now
                    end
        | None => now
        end)
       (or_empty initialData Partial.gender)
       (or_empty initialData Partial.country)
       (or_empty initialData Partial.bio)
       (or_false initialData Partial.notifications)
       (or_false initialData Partial.newsletter))
    FormErrors.empty
    false
    false.

Definition chr (a : ascii) : N := N_of_ascii a.

(** [/^[^\s@]+@[^\s@]+\.[^\s@]+$/] *)
Definition emailRegex : re :=
  let part := CNeg (CUnion CSpace (CChar (chr "@"))) in
  seq [Bol; plus part; one (CChar (chr "@")); plus part;
       one (CChar (chr ".")); plus part] Eol.

Definition validateEmail (email : jsstring) : bool := test emailRegex email.

(** [/^\(?\d{2}\)?[\s-]?\d{4,5}[\s-]?\d{4}$/] *)
Definition phoneRegex : re :=
  let sep := CUnion CSpace (CChar (chr "-")) in
  seq [Bol; opt (CChar (chr "(")); times CDigit 2; opt (CChar (chr ")"));
       opt sep; range CDigit 4 5; opt sep; times CDigit 4] Eol.

Definition validatePhone (phone : jsstring) : bool :=
  test phoneRegex (delete_all (CNeg CDigit) phone).

(** An assignment [newErrors.f = message; isValid = false]. *)
Definition flag (set : option string -> FormErrors.t -> FormErrors.t)
           (message : string) (v : FormErrors.t * bool) : FormErrors.t * bool :=
  (set (Some message) (fst v), false).

(** [validateForm]; [today] is the value of [new Date()] at the call.
    The result is the returned flag and the state after [setErrors]. *)
Definition validateForm (today : Date) (st : State) : bool * State :=
  let formData := formData st in
  let v := (FormErrors.empty, true) in
  (* Nome *)
  let v :=
    if negb (truthy (trim (firstName formData)))
    then flag FormErrors.set_firstName "Nome é obrigatório" v
    else if (List.length (firstName formData) <? 2)%nat
    then flag FormErrors.set_firstName "Nome deve ter pelo menos 2 caracteres" v
    else v in
  (* Sobrenome *)
  let v :=
    if negb (truthy (trim (lastName formData)))
    then flag FormErrors.set_lastName "Sobrenome é obrigatório" v
    else if (List.length (lastName formData) <? 2)%nat
    then flag FormErrors.set_lastName "Sobrenome deve ter pelo menos 2 caracteres" v
    else v in
  (* Email *)
  let v :=
    if negb (truthy (trim (email formData)))
    then flag FormErrors.set_email "Email é obrigatório" v
    else if negb (validateEmail (email formData))
    then flag FormErrors.set_email "Email inválido" v
    else v in
  (* Telefone *)
  let v :=
    if negb (truthy (trim (phone formData)))
    then flag FormErrors.set_phone "Telefone é obrigatório" v
    else if negb (validatePhone (phone formData))
    then flag FormErrors.set_phone "Telefone inválido" v
    else v in
  (* Data de nascimento *)
  let age := (getFullYear today - getFullYear (birthDate formData))%Z in
  let v :=
    if (age <? 13)%Z
    then flag FormErrors.set_birthDate "Idade mínima é 13 anos" v
    else if (age >? 120)%Z
    then flag FormErrors.set_birthDate "Data de nascimento inválida" v
    else v in
  (* País *)
  let v :=
    if negb (truthy (country formData))
    then flag FormErrors.set_country "País é obrigatório" v
    else v in
  (* Bio *)
  let v :=
    if (500 <? List.length (bio formData))%nat
    then flag FormErrors.set_bio "Bio deve ter no máximo 500 caracteres" v
    else v in
  (snd v, setErrors (fun _ => fst v) st).

(** [/^(\d{2})(\d{4,5})(\d{4})$/] *)
Definition formatRegex : re :=
  seq [Bol; Grp 1 (times CDigit 2); Grp 2 (range CDigit 4 5);
       Grp 3 (times CDigit 4)] Eol.

Definition formatPhone (phone : jsstring) : jsstring :=
  let cleaned := delete_all (CNeg CDigit) phone in
  match exec formatRegex cleaned with
  | Some m =>
    (lit "(" ++ subst (group m 1) ++ lit ") " ++ subst (group m 2)
         ++ lit "-" ++ subst (group m 3))%list
  | None => phone
  end.

(** [keyof FormData] *)
Inductive Field : Type :=
| K_firstName | K_lastName | K_email | K_phone | K_birthDate
| K_gender | K_country | K_bio | K_notifications | K_newsletter.

(** The type of [FormData[field]]. *)
Definition field_type (field : Field) : Type :=
  match field with
  | K_birthDate => Date
  | K_notifications | K_newsletter => bool
  | _ => jsstring
  end.

(** [formData[field]] *)
Definition get_field (field : Field) (d : FormData) : field_type field :=
  match field with
  | K_firstName => firstName d
  | K_lastName => lastName d
  | K_email => email d
  | K_phone => phone d
  | K_birthDate => birthDate d
  | K_gender => gender d
  | K_country => country d
  | K_bio => bio d
  | K_notifications => notifications d
  | K_newsletter => newsletter d
  end.

(** [{ ...prev, [field]: value }] on the form data *)
Definition set_field (field : Field) : field_type field -> FormData -> FormData :=
  match field with
  | K_firstName => fun v d =>
      MkFormData v (lastName d) (email d) (phone d) (birthDate d) (gender d)
                 (country d) (bio d) (notifications d) (newsletter d)
  | K_lastName => fun v d =>
      MkFormData (firstName d) v (email d) (phone d) (birthDate d) (gender d)
                 (country d) (bio d) (notifications d) (newsletter d)
  | K_email => fun v d =>
      MkFormData (firstName d) (lastName d) v (phone d) (birthDate d) (gender d)
                 (country d) (bio d) (notifications d) (newsletter d)
  | K_phone => fun v d =>
      MkFormData (firstName d) (lastName d) (email d) v (birthDate d) (gender d)
                 (country d) (bio d) (notifications d) (newsletter d)
  | K_birthDate => fun v d =>
      MkFormData (firstName d) (lastName d) (email d) (phone d) v (gender d)
                 (country d) (bio d) (notifications d) (newsletter d)
  | K_gender => fun v d =>
      MkFormData (firstName d) (lastName d) (email d) (phone d) (birthDate d) v
                 (country d) (bio d) (notifications d) (newsletter d)
  | K_country => fun v d =>
      MkFormData (firstName d) (lastName d) (email d) (phone d) (birthDate d)
                 (gender d) v (bio d) (notifications d) (newsletter d)
  | K_bio => fun v d =>
      MkFormData (firstName d) (lastName d) (email d) (phone d) (birthDate d)
                 (gender d) (country d) v (notifications d) (newsletter d)
  | K_notifications => fun v d =>
      MkFormData (firstName d) (lastName d) (email d) (phone d) (birthDate d)
                 (gender d) (country d) (bio d) v (newsletter d)
  | K_newsletter => fun v d =>
      MkFormData (firstName d) (lastName d) (email d) (phone d) (birthDate d)
                 (gender d) (country d) (bio d) (notifications d) v
  end.

(** [errors[field as keyof FormErrors]]: the fields [gender],
    [notifications] and [newsletter] are no keys of [FormErrors] and read
    as [undefined]. *)
Definition error_of (e : FormErrors.t) (field : Field) : option string :=
  match field with
  | K_firstName => FormErrors.firstName e
  | K_lastName => FormErrors.lastName e
  | K_email => FormErrors.email e
  | K_phone => FormErrors.phone e
  | K_birthDate => FormErrors.birthDate e
  | K_country => FormErrors.country e
  | K_bio => FormErrors.bio e
  | K_gender | K_notifications | K_newsletter => None
  end.

(** [{ ...prev, [field]: undefined }] on the errors *)
Definition clear_error (field : Field) (e : FormErrors.t) : FormErrors.t :=
  match field with
  | K_firstName => FormErrors.set_firstName None e
  | K_lastName => FormErrors.set_lastName None e
  | K_email => FormErrors.set_email None e
  | K_phone => FormErrors.set_phone None e
  | K_birthDate => FormErrors.set_birthDate None e
  | K_country => FormErrors.set_country None e
  | K_bio => FormErrors.set_bio None e
  | K_gender | K_notifications | K_newsletter => e
  end.

(** The condition [if (m)] on an optional message: [undefined] and the
    empty string are falsy. *)
Definition truthy_message (m : option string) : bool :=
  match m with
  | Some (String _ _) => true
  | _ => false
  end.

(** [updateFormData]: the condition reads the errors of the render the
    handler belongs to, the setters update the stored state. *)
Definition updateFormData (field : Field) (value : field_type field)
           (st : State) : State :=
  let st' := setFormData (set_field field value) st in
  if truthy_message (error_of (errors st) field)
  then setErrors (clear_error field) st'
  else st'.

(** The [onChange] handler of the date picker. *)
Definition onDateChange (selectedDate : option Date) (st : State) : State :=
  let st' := setShowDatePicker false st in
  match selectedDate with
  | Some d =>
    let st'' := setFormData (set_field K_birthDate d) st' in
    if truthy_message (error_of (errors st) K_birthDate)
    then setErrors (clear_error K_birthDate) st''
    else st''
  | None => st'
  end.

(** ** Submission *)

Definition Handler := M State FormData.

Definition alert (title message : string) (buttons : list button) : Handler unit :=
  emit (Alert title message buttons).

(** [await new Promise(resolve => setTimeout(resolve, ms))] *)
Definition sleep (ms : N) : Handler unit := emit (SetTimeout ms).

(** [handleSubmit]; [onSubmit] is the optional property of the component,
    [today] the value of [new Date()] read by [validateForm].  The handler
    is followed from its call to its end; the form data it submits are
    those of the render it belongs to. *)
Definition handleSubmit (onSubmit : option (FormData -> outcome))
           (today : Date) : Handler unit :=
  formData <- gets formData ;;
  valid <- (fun w => let r := validateForm today (store w) in
                     (Ok (fst r), World (snd r) (trace w))) ;;
  if negb valid then
    alert "Erro" "Por favor, corrija os erros no formulário." []
  else
    modify (setIsLoading true) ;;
    try_finally
      (try_catch
         (sleep 2000 ;;
          match onSubmit with
          | Some f => invoke f formData
          | None =>
            alert "Sucesso" "Formulário enviado com sucesso!"
                  [Button "OK" (Some GoBack)]
          end)
         (alert "Erro" "Falha ao enviar formulário. Tente novamente." []))
      (modify (setIsLoading false)).

End FormScreen.

(* ================================================================== *)
(** * LoginScreen.tsx *)
(* ================================================================== *)

Module LoginScreen.
Import JS Eff Eff.Notations.
Local Open Scope string_scope.

(** The object held by [errors]: both keys are always there, and the
    empty string stands for no error (the screen shows a message only
    when it is truthy). *)
Module Errors.
Record t : Type := Mk { email : string; password : string }.

Definition set_email (v : string) (e : t) : t := Mk v (password e).
Definition set_password (v : string) (e : t) : t := Mk (email e) v.
End Errors.

(** The state of the component: its five [useState] cells. *)
Record State : Type := MkState {
  email : jsstring;
  password : jsstring;
  showPassword : bool;
  isLoading : bool;
  errors : Errors.t
}.

Definition initialState : State :=
  MkState [] [] false false (Errors.Mk EmptyString EmptyString).

Definition setEmail (v : jsstring) (st : State) : State :=
  MkState v (password st) (showPassword st) (isLoading st) (errors st).
Definition setPassword (v : jsstring) (st : State) : State :=
  MkState (email st) v (showPassword st) (isLoading st) (errors st).
Definition setShowPassword (b : bool) (st : State) : State :=
  MkState (email st) (password st) b (isLoading st) (errors st).
Definition setIsLoading (b : bool) (st : State) : State :=
  MkState (email st) (password st) (showPassword st) b (errors st).
Definition setErrors (e : Errors.t) (st : State) : State :=
  MkState (email st) (password st) (showPassword st) (isLoading st) e.

Definition chr (a : ascii) : N := N_of_ascii a.

(** [/^[^\s@]+@[^\s@]+\.[^\s@]+$/] *)
Definition emailRegex : re :=
  let part := CNeg (CUnion CSpace (CChar (chr "@"))) in
  seq [Bol; plus part; one (CChar (chr "@")); plus part;
       one (CChar (chr ".")); plus part] Eol.

Definition validateEmail (email : jsstring) : bool := test emailRegex email.

(** An assignment [newErrors.f = message; isValid = false]. *)
Definition flag (set : string -> Errors.t -> Errors.t)
           (message : string) (v : Errors.t * bool) : Errors.t * bool :=
  (set message (fst v), false).

(** [validateForm]: the returned flag and the state after [setErrors]. *)
Definition validateForm (st : State) : bool * State :=
  let v := (Errors.Mk EmptyString EmptyString, true) in
  let v :=
    if negb (truthy (trim (email st)))
    then flag Errors.set_email "Email é obrigatório" v
    else if negb (validateEmail (email st))
    then flag Errors.set_email "Email inválido" v
    else v in
  let v :=
    if negb (truthy (trim (password st)))
    then flag Errors.set_password "Senha é obrigatória" v
    else if (List.length (password st) <? 6)%nat
    then flag Errors.set_password "Senha deve ter pelo menos 6 caracteres" v
    else v in
  (snd v, setErrors (fst v) st).

(** [keyof typeof errors] *)
Inductive Field : Type := K_email | K_password.

(** The message the screen shows for a field ([errors.f ? ... : null]):
    none when the stored string is empty. *)
Definition shown (e : Errors.t) (field : Field) : option string :=
  let m := match field with
           | K_email => Errors.email e
           | K_password => Errors.password e
           end in
  match m with
  | EmptyString => None
  | String _ _ => Some m
  end.

Definition Handler := M State (jsstring * jsstring).

Definition alert (title message : string) : Handler unit :=
  emit (Alert title message []).

(** [await new Promise(resolve => setTimeout(resolve, ms))] *)
Definition sleep (ms : N) : Handler unit := emit (SetTimeout ms).

(** [handleLogin]; [onLogin] is the optional property of the component. *)
Definition handleLogin (onLogin : option (jsstring -> jsstring -> outcome))
  : Handler unit :=
  email <- gets email ;;
  password <- gets password ;;
  valid <- (fun w => let r := validateForm (store w) in
                     (Ok (fst r), World (snd r) (trace w))) ;;
  if negb valid then ret tt
  else
    modify (setIsLoading true) ;;
    try_finally
      (try_catch
         (sleep 2000 ;;
          match onLogin with
          | Some f => invoke (fun p => f (fst p) (snd p)) (email, password)
          | None => alert "Sucesso" "Login realizado com sucesso!"
          end)
         (alert "Erro" "Falha no login. Tente novamente."))
      (modify (setIsLoading false)).

End LoginScreen.


(* ================================================================== *)
(** * What a pattern matches *)
(* ================================================================== *)

Module Sem.
Import JS.

(** Strings of white space only, strings of digits only. *)
Definition all_ws (s : jsstring) : Prop := Forall (fun c => is_ws c = true) s.

Definition all_digits (d : jsstring) : Prop :=
  Forall (fun c => is_digit c = true) d.

(** [accepts k pre]: every code unit of [pre] is in the class [k]. *)
Definition accepts (k : cls) (pre : jsstring) : Prop :=
  Forall (fun c => cls_mem k c = true) pre.

(** [within n hi]: [n] respects the upper bound of a quantifier. *)
Definition within (n : nat) (hi : option nat) : Prop :=
  match hi with
  | Some h => n <= h
  | None => True
  end.

(** [matches r st st']: the pattern [r] can take the match from [st] to
    [st'].  The relation lists every way the pattern matches, without the
    order in which the backtracking matcher tries them. *)
Fixpoint matches (r : re) (st st' : mstate) : Prop :=
  match r with
  | Bol => pos st = 0 /\ st' = st
  | Eol => rest st = [] /\ st' = st
  | Rep k lo hi =>
    exists pre,
      rest st = pre ++ rest st' /\
      pos st' = pos st + List.length pre /\
      caps st' = caps st /\
      accepts k pre /\ lo <= List.length pre /\ within (List.length pre) hi
  | Grp i r' =>
    exists m,
      matches r' st m /\
      st' = MState (pos m) (rest m)
                   ((i, firstn (pos m - pos st) (rest st)) :: caps m)
  | Seq r1 r2 => exists m, matches r1 st m /\ matches r2 m st'
  end.

End Sem.

(* ================================================================== *)
(** * The rule table of the specification *)
(* ================================================================== *)

(** The validation rules in the words of the specification, to be compared
    with what [validateForm] computes. *)

Module Rules.
Import JS.

(** "required": not empty after trim. *)
Definition required (s : jsstring) : Prop := trim s <> [].

(** A code unit that may stand in a part of an address: no white space and
    no [@]. *)
Definition part_char (c : N) : Prop := is_ws c = false /\ c <> 64%N.

(** The shape [local@domain.tld]. *)
Definition email_shape (s : jsstring) : Prop :=
  exists l d t,
    s = l ++ [64%N] ++ d ++ [46%N] ++ t /\
    l <> [] /\ d <> [] /\ t <> [] /\
    Forall part_char l /\ Forall part_char d /\ Forall part_char t.

(** The string after stripping the non-digits. *)
Definition digits (s : jsstring) : jsstring := filter is_digit s.

(** A local-format phone number of 10 or 11 digits: an area code of two
    digits, a prefix of four or five and a suffix of four. *)
Definition phone_shape (d : jsstring) : Prop :=
  exists area prefix suffix,
    d = area ++ prefix ++ suffix /\
    List.length area = 2 /\
    (List.length prefix = 4 \/ List.length prefix = 5) /\
    List.length suffix = 4.

(** The format [(dd) dddd-dddd] or [(dd) ddddd-dddd] of a phone number with
    the area code [a], the prefix [b] and the suffix [c]. *)
Definition formatted (a b c : jsstring) : jsstring :=
  lit "(" ++ a ++ lit ") " ++ b ++ lit "-" ++ c.

(** The age: the current year minus the year of birth. *)
Definition age (today birthDate : FormScreen.Date) : Z :=
  (FormScreen.fullYear today - FormScreen.fullYear birthDate)%Z.

(** The rule of each field of the sign-up form; the three fields without a
    row in the table have no rule to fail. *)
Definition form_rule (today : FormScreen.Date) (d : FormScreen.FormData)
           (field : FormScreen.Field) : Prop :=
  match field with
  | FormScreen.K_firstName =>
    required (FormScreen.firstName d) /\ 2 <= List.length (FormScreen.firstName d)
  | FormScreen.K_lastName =>
    required (FormScreen.lastName d) /\ 2 <= List.length (FormScreen.lastName d)
  | FormScreen.K_email =>
    required (FormScreen.email d) /\ email_shape (FormScreen.email d)
  | FormScreen.K_phone =>
    required (FormScreen.phone d) /\ phone_shape (digits (FormScreen.phone d))
  | FormScreen.K_birthDate =>
    (13 <= age today (FormScreen.birthDate d) <= 120)%Z
  | FormScreen.K_country => FormScreen.country d <> []
  | FormScreen.K_bio => List.length (FormScreen.bio d) <= 500
  | FormScreen.K_gender | FormScreen.K_notifications | FormScreen.K_newsletter =>
    True
  end.

(** The rule of each field of the login form as the table words it: a
    field must not be empty, the email must have its shape and the
    password six code units or more. *)
Definition login_rule_tabled (st : LoginScreen.State) (field : LoginScreen.Field)
  : Prop :=
  match field with
  | LoginScreen.K_email =>
    LoginScreen.email st <> [] /\ email_shape (LoginScreen.email st)
  | LoginScreen.K_password =>
    LoginScreen.password st <> [] /\ 6 <= List.length (LoginScreen.password st)
  end.

(** The rule of each field of the login form with "required" read as for
    the names of the sign-up form, not empty after trim: the rule of the
    table for the email, a stronger one for the password. *)
Definition login_rule (st : LoginScreen.State) (field : LoginScreen.Field) : Prop :=
  match field with
  | LoginScreen.K_email =>
    required (LoginScreen.email st) /\ email_shape (LoginScreen.email st)
  | LoginScreen.K_password =>
    required (LoginScreen.password st) /\ 6 <= List.length (LoginScreen.password st)
  end.

(** The entries of the error map are messages to read: none is the empty
    string.  Every state of the sign-up form is of this kind. *)
Definition messages_not_empty (e : FormScreen.FormErrors.t) : Prop :=
  forall field, FormScreen.error_of e field <> Some EmptyString.

(** The states the sign-up form goes through: the initial one, and those
    its handlers lead to. *)
Inductive reachable (initialData : option FormScreen.Partial.t)
          (now : FormScreen.Date) : FormScreen.State -> Prop :=
| reach_initial :
    reachable initialData now (FormScreen.initialState initialData now)
| reach_update field value st :
    reachable initialData now st ->
    reachable initialData now (FormScreen.updateFormData field value st)
| reach_picker b st :
    reachable initialData now st ->
    reachable initialData now (FormScreen.setShowDatePicker b st)
| reach_date selectedDate st :
    reachable initialData now st ->
    reachable initialData now (FormScreen.onDateChange selectedDate st)
| reach_submit onSubmit today t st :
    reachable initialData now st ->
    reachable initialData now
              (Eff.store (snd (FormScreen.handleSubmit onSubmit today (Eff.World st t)))).

(** The sign-up form with every field as the first testable property lists
    them. *)
Definition form_fields_valid (today : FormScreen.Date) (d : FormScreen.FormData)
  : Prop :=
  required (FormScreen.firstName d) /\ 2 <= List.length (FormScreen.firstName d) /\
  required (FormScreen.lastName d) /\ 2 <= List.length (FormScreen.lastName d) /\
  email_shape (FormScreen.email d) /\
  phone_shape (digits (FormScreen.phone d)) /\
  (13 <= age today (FormScreen.birthDate d) <= 120)%Z /\
  FormScreen.country d <> [] /\
  List.length (FormScreen.bio d) <= 500.

End Rules.


(* ================================================================== *)
(** * The blocks of [validateForm] *)
(* ================================================================== *)

(** Every block of [validateForm] in [FormScreen.tsx] has one shape: under
    a first condition the field gets a first message, under a second
    condition a second message, and the flag is lowered with it. *)

Module Blocks.
Import FormScreen.

Definition block (set : option string -> FormErrors.t -> FormErrors.t)
           (c1 : bool) (m1 : string) (c2 : bool) (m2 : string)
           (v : FormErrors.t * bool) : FormErrors.t * bool :=
  if c1 then flag set m1 v else if c2 then flag set m2 v else v.

(** The message a block leaves in its field when the field had none. *)
Definition verdict (c1 : bool) (m1 : string) (c2 : bool) (m2 : string)
  : option string :=
  if c1 then Some m1 else if c2 then Some m2 else None.

End Blocks.

(* ================================================================== *)
(** * Sample states *)
(* ================================================================== *)

Module Samples.
Import JS.
Local Open Scope string_scope.

(** A filled sign-up form, a day to validate it on, and a login. *)
Definition ana : FormScreen.FormData :=
  FormScreen.MkFormData
    (lit "Ana") (lit "Silva") (lit "ana@example.com") (lit "(11) 99999-9999")
    (FormScreen.MkDate 1990 5 17) (lit "female") (lit "BR") [] false true.

Definition a_day : FormScreen.Date := FormScreen.MkDate 2026 11 2.

Definition ana_form : FormScreen.State :=
  FormScreen.MkState ana FormScreen.FormErrors.empty false false.

Definition ana_login : LoginScreen.State :=
  LoginScreen.MkState (lit "ana@example.com") (lit "s3gredo!") false false
                      (LoginScreen.Errors.Mk EmptyString EmptyString).

(** A login whose password is six spaces. *)
Definition blank_login : LoginScreen.State :=
  LoginScreen.MkState (lit "ana@example.com") (lit "      ") false false
                      (LoginScreen.Errors.Mk EmptyString EmptyString).

(** A form of someone born in 2013, validated on the last day of 2025 and
    on the first day of 2026. *)
Definition teen_form : FormScreen.State :=
  FormScreen.MkState
    (FormScreen.set_field FormScreen.K_birthDate (FormScreen.MkDate 2013 6 1) ana)
    FormScreen.FormErrors.empty false false.

(** The form opened on [a_day] without initial data, every field filled in
    but the birth date, which is still the default one. *)
Definition kept_default : FormScreen.State :=
  FormScreen.updateFormData FormScreen.K_country (lit "BR")
    (FormScreen.updateFormData FormScreen.K_phone (lit "(11) 99999-9999")
      (FormScreen.updateFormData FormScreen.K_email (lit "ana@example.com")
        (FormScreen.updateFormData FormScreen.K_lastName (lit "Silva")
          (FormScreen.updateFormData FormScreen.K_firstName (lit "Ana")
            (FormScreen.initialState None a_day))))).

End Samples.

(* ================================================================== *)
(** * The handlers written in the markup of FormScreen.tsx *)
(* ================================================================== *)

Module FormHandlers.
Import JS FormScreen.

(** [onChangeText] of the phone field:
    [(text) => updateFormData('phone', formatPhone(text))]. *)
Definition onChangePhone (text : jsstring) (st : State) : State :=
  updateFormData K_phone (formatPhone text) st.

(** An [initialData] that gives every field of the form. *)
Definition complete (d : FormData) : Partial.t :=
  Partial.Mk (Some (firstName d)) (Some (lastName d)) (Some (email d))
             (Some (phone d)) (Some (birthDate d)) (Some (gender d))
             (Some (country d)) (Some (bio d)) (Some (notifications d))
             (Some (newsletter d)).

End FormHandlers.

(* ================================================================== *)
(** * DashboardScreen.tsx *)
(* ================================================================== *)

Module DashboardScreen.
Import JS.
Local Open Scope Z_scope.

(** A [Date], by its time value: the milliseconds since the epoch, an
    integer. *)
Record Date : Type := MkDate { getTime : Z }.

(** The time values a valid [Date] can hold: 100 000 000 days on either side
    of the epoch. *)
Definition valid (d : Date) : Prop :=
  -8640000000000000 <= getTime d <= 8640000000000000.

(** The pairs of dates whose difference a binary64 number holds exactly and
    divides without a visible error: the difference is under 2^53
    milliseconds, some 285 000 years, in absolute value. *)
Definition exact (now date : Date) : Prop :=
  Z.abs (getTime now - getTime date) < 2 ^ 53.

(** An integer substituted in a template literal: its decimal digits,
    after a minus sign when it is negative. *)
Definition number_to_string (n : Z) : jsstring :=
  lit (DecimalString.NilZero.string_of_int (Z.to_int n)).

(** The text [" atrás"]; its fifth code unit is U+00E1. *)
Definition atras : jsstring := (lit " atr" ++ [225%N] ++ lit "s")%list.

(** [formatTimeAgo]; [now] is the value of [new Date()] at the call.  The
    numbers of the source are binary64 numbers; the quotients are computed
    here on integers, rounded down.  For [valid] dates that are [exact]
    the two agree: the difference is an integer under 2^53, so the error
    of its division by 60000 is under 1/60000 and [Math.floor] meets the
    same integer, and so for the smaller quotients that follow.  Outside
    this range the source may show another number, and nothing is stated
    here about it. *)
Definition formatTimeAgo (now : Date) (date : Date) : jsstring :=
  let diffInMinutes := (getTime now - getTime date) / (1000 * 60) in
  if diffInMinutes <? 60 then
    (number_to_string diffInMinutes ++ lit "m" ++ atras)%list
  else if diffInMinutes <? 1440 then
    (number_to_string (diffInMinutes / 60) ++ lit "h" ++ atras)%list
  else
    (number_to_string (diffInMinutes / 1440) ++ lit "d" ++ atras)%list.

End DashboardScreen.

(* ================================================================== *)
(** * The traces of the handlers *)
(* ================================================================== *)

Module Traces.
Import JS.
Local Open Scope string_scope.

(** What the injected callback was given, call by call. *)
Definition payloads (P : Type) (t : list (Eff.event P)) : list P :=
  flat_map (fun e => match e with Eff.Invoke p => [p] | _ => [] end) t.

(** The trace a submit adds at its end. *)
Definition submit_events (onSubmit : option (FormScreen.FormData -> Eff.outcome))
           (valid : bool) (d : FormScreen.FormData)
  : list (Eff.event FormScreen.FormData) :=
  if valid then
    Eff.SetTimeout 2000 ::
    match onSubmit with
    | Some f =>
      Eff.Invoke d ::
      match f d with
      | Eff.Returns => []
      | Eff.Throws =>
        [Eff.Alert "Erro" "Falha ao enviar formulário. Tente novamente." []]
      end
    | None =>
      [Eff.Alert "Sucesso" "Formulário enviado com sucesso!"
                 [Eff.Button "OK" (Some Eff.GoBack)]]
    end
  else [Eff.Alert "Erro" "Por favor, corrija os erros no formulário." []].

Definition login_events (onLogin : option (jsstring -> jsstring -> Eff.outcome))
           (valid : bool) (d : jsstring * jsstring)
  : list (Eff.event (jsstring * jsstring)) :=
  if valid then
    Eff.SetTimeout 2000 ::
    match onLogin with
    | Some f =>
      Eff.Invoke d ::
      match f (fst d) (snd d) with
      | Eff.Returns => []
      | Eff.Throws => [Eff.Alert "Erro" "Falha no login. Tente novamente." []]
      end
    | None => [Eff.Alert "Sucesso" "Login realizado com sucesso!" []]
    end
  else [].

End Traces.

(* ================================================================== *)
(** * Facts about strings and the matcher *)
(* ================================================================== *)

Module JSFacts.
Import JS Sem.

Lemma trimStart_all_ws (s : jsstring) : all_ws (trimStart s) <-> all_ws s.
Proof.
  unfold all_ws. induction s as [|c s IH]; simpl; [tauto|].
  destruct (is_ws c) eqn:E; [|tauto].
  rewrite IH. split; intros H.
  - now constructor.
  - now inversion H.
Qed.

Lemma trimStart_nil (s : jsstring) : trimStart s = [] <-> all_ws s.
Proof.
  unfold all_ws. induction s as [|c s IH]; simpl.
  - split; [constructor | reflexivity].
  - destruct (is_ws c) eqn:E.
    + rewrite IH. split; intros H; [now constructor | now inversion H].
    + split; [discriminate|]. intros H. inversion H; congruence.
Qed.

Lemma trim_nil (s : jsstring) : trim s = [] <-> all_ws s.
Proof.
  unfold trim, trimEnd.
  rewrite <- (trimStart_all_ws s).
  split.
  - intros H. apply (f_equal (@rev N)) in H. rewrite rev_involutive in H.
    simpl in H. apply trimStart_nil in H. unfold all_ws in *.
    apply Forall_rev in H. now rewrite rev_involutive in H.
  - intros H. unfold all_ws in H. apply Forall_rev in H.
    apply trimStart_nil in H. now rewrite H.
Qed.

Lemma truthy_true (s : jsstring) : truthy s = true <-> s <> [].
Proof. destruct s; simpl; split; congruence. Qed.

Lemma truthy_false (s : jsstring) : truthy s = false <-> s = [].
Proof. destruct s; simpl; split; congruence. Qed.

(** A string with a code unit that is no white space is not empty after
    trim. *)
Lemma trim_not_nil (s : jsstring) (c : N) :
  In c s -> is_ws c = false -> trim s <> [].
Proof.
  intros Hin Hc Ht. apply trim_nil in Ht. unfold all_ws in Ht.
  rewrite Forall_forall in Ht. specialize (Ht c Hin). congruence.
Qed.

Section MatcherFacts.
Variable R : Type.

Lemma rep_sound (k : cls) (s : jsstring) :
  forall lo hi n (cont : nat -> jsstring -> option R) x,
    rep k lo hi n s cont = Some x ->
    exists pre s',
      s = pre ++ s' /\ accepts k pre /\ lo <= List.length pre /\
      within (List.length pre) hi /\ cont (n + List.length pre) s' = Some x.
Proof.
  assert (Hstop : forall s0 lo hi n (cont : nat -> jsstring -> option R) x,
             (if (lo =? 0)%nat then cont n s0 else None) = Some x ->
             exists pre s',
               s0 = pre ++ s' /\ accepts k pre /\ lo <= List.length pre /\
               within (List.length pre) hi /\ cont (n + List.length pre) s' = Some x).
  { intros s0 lo hi n cont x H. destruct (Nat.eqb_spec lo 0); [|discriminate].
    exists [], s0. simpl. rewrite Nat.add_0_r.
    repeat split; [constructor | lia | destruct hi; simpl; lia | assumption]. }
  induction s as [|c s IH]; intros lo hi n cont x H.
  - apply Hstop. destruct hi as [[|h]|]; exact H.
  - simpl in H.
    assert (Hmore : forall hi',
               match hi' with Some h => hi = Some (S h) | None => hi = None end ->
               (if cls_mem k c
                then match rep k (Nat.pred lo) hi' (S n) s cont with
                     | Some y => Some y
                     | None => if (lo =? 0)%nat then cont n (c :: s) else None
                     end
                else if (lo =? 0)%nat then cont n (c :: s) else None) = Some x ->
               exists pre s',
                 c :: s = pre ++ s' /\ accepts k pre /\ lo <= List.length pre /\
                 within (List.length pre) hi /\ cont (n + List.length pre) s' = Some x).
    { intros hi' Hhi Hm. destruct (cls_mem k c) eqn:Ec; [|now apply Hstop].
      destruct (rep k (Nat.pred lo) hi' (S n) s cont) as [y|] eqn:Er;
        [|now apply Hstop].
      injection Hm as ->.
      destruct (IH _ _ _ _ _ Er) as (pre & s' & -> & Hacc & Hlo & Hhi' & Hc).
      exists (c :: pre), s'. simpl.
      repeat split.
      - now constructor.
      - lia.
      - destruct hi' as [h|]; subst hi; simpl in *; lia.
      - now rewrite Nat.add_succ_r. }
    destruct hi as [[|h]|].
    + now apply Hstop.
    + now apply (Hmore (Some h)).
    + now apply (Hmore None).
Qed.

Lemma rep_complete (k : cls) (pre : jsstring) :
  forall s' lo hi n (cont : nat -> jsstring -> option R),
    accepts k pre -> lo <= List.length pre -> within (List.length pre) hi ->
    cont (n + List.length pre) s' <> None ->
    rep k lo hi n (pre ++ s') cont <> None.
Proof.
  induction pre as [|c pre IH]; intros s' lo hi n cont Hacc Hlo Hhi Hc.
  - simpl in *. rewrite Nat.add_0_r in Hc.
    assert (lo = 0) as -> by lia.
    destruct s' as [|c s']; simpl.
    + destruct hi as [[|h]|]; exact Hc.
    + destruct hi as [[|h]|]; [exact Hc| |];
        (destruct (cls_mem k c); [|exact Hc];
         match goal with |- context [rep ?a ?b ?c ?d ?e ?f] =>
           destruct (rep a b c d e f) end; [discriminate | exact Hc]).
  - inversion Hacc as [|? ? Hc1 Hacc']; subst.
    simpl in Hlo, Hhi, Hc.
    assert (Hrec : forall hi', within (List.length pre) hi' ->
               rep k (Nat.pred lo) hi' (S n) (pre ++ s') cont <> None).
    { intros hi' Hw. apply IH; [assumption | lia | assumption |].
      now rewrite Nat.add_succ_r in Hc. }
    destruct hi as [[|h]|]; simpl in Hhi; [lia| |]; simpl; rewrite Hc1.
    + specialize (Hrec (Some h)). simpl in Hrec.
      destruct (rep k (Nat.pred lo) (Some h) (S n) (pre ++ s') cont);
        [discriminate | exfalso; apply Hrec; [lia | reflexivity]].
    + specialize (Hrec None I).
      destruct (rep k (Nat.pred lo) None (S n) (pre ++ s') cont);
        [discriminate | exfalso; now apply Hrec].
Qed.

(** The matcher only finds matches of the pattern. *)
Lemma match_re_sound (r : re) :
  forall st (cont : mstate -> option R) x,
    match_re r st cont = Some x ->
    exists st', matches r st st' /\ cont st' = Some x.
Proof.
  induction r as [| |k lo hi|i r IH|r1 IH1 r2 IH2]; intros st cont x H; simpl in *.
  - destruct (Nat.eqb_spec (pos st) 0); [|discriminate]. now exists st.
  - destruct (rest st) eqn:E; [|discriminate]. now exists st.
  - apply rep_sound in H. destruct H as (pre & s' & Hs & Hacc & Hlo & Hhi & Hc).
    exists (MState (pos st + List.length pre) s' (caps st)). split; [|exact Hc].
    exists pre. simpl. now repeat split.
  - apply IH in H. destruct H as (m & Hm & Hc). eauto.
  - apply IH1 in H. destruct H as (m & Hm & H).
    apply IH2 in H. destruct H as (st' & Hst' & Hc). eauto.
Qed.

(** The matcher finds a match whenever the pattern has one. *)
Lemma match_re_complete (r : re) :
  forall st st' (cont : mstate -> option R),
    matches r st st' -> cont st' <> None -> match_re r st cont <> None.
Proof.
  induction r as [| |k lo hi|i r IH|r1 IH1 r2 IH2]; intros st st' cont Hm Hc;
    simpl in *.
  - destruct Hm as [Hp ->]. now rewrite Hp.
  - destruct Hm as [Hr ->]. now rewrite Hr.
  - destruct Hm as (pre & Hs & Hp & Hcaps & Hacc & Hlo & Hhi).
    rewrite Hs. apply rep_complete; try assumption.
    rewrite <- Hp, <- Hcaps. now destruct st'.
  - destruct Hm as (m & Hm & ->). now apply (IH st m).
  - destruct Hm as (m & Hm1 & Hm2). apply (IH1 st m); [assumption|].
    now apply (IH2 m st').
Qed.

End MatcherFacts.

Lemma exec_from_anchored (r : re) (s : jsstring) :
  forall n, exec_from (Seq Bol r) (S n) s = None.
Proof.
  induction s as [|c s IH]; intros n; simpl; [reflexivity | apply IH].
Qed.

(** A pattern that starts with [^] matches at index 0 or not at all. *)
Lemma exec_anchored (r : re) (s : jsstring) :
  exec (Seq Bol r) s = match_re r (MState 0 s []) (@Some mstate).
Proof.
  unfold exec. destruct s as [|c s]; simpl.
  - now destruct (match_re r (MState 0 [] []) (@Some mstate)).
  - rewrite exec_from_anchored.
    now destruct (match_re r (MState 0 (c :: s) []) (@Some mstate)).
Qed.

End JSFacts.


(* ================================================================== *)
(** * The patterns of the screens *)
(* ================================================================== *)

Module PatternFacts.
Import JS Sem Rules JSFacts.

(** [test] on a pattern anchored at the start. *)
Lemma test_anchored (r : re) (s : jsstring) :
  test (Seq Bol r) s = true <-> exists st', matches r (MState 0 s []) st'.
Proof.
  unfold test. rewrite exec_anchored. split.
  - destruct (match_re r (MState 0 s []) (@Some mstate)) as [m|] eqn:E;
      [|discriminate].
    intros _. apply match_re_sound in E. destruct E as (st' & H & _). eauto.
  - intros (st' & H).
    apply (@match_re_complete mstate r _ _ (@Some mstate)) in H; [|discriminate].
    now destruct (match_re r (MState 0 s []) (@Some mstate)).
Qed.

Lemma accepts_char_one (x : N) (pre : jsstring) :
  accepts (CChar x) pre -> List.length pre = 1 -> pre = [x].
Proof.
  intros H Hl. destruct pre as [|c [|c' pre]]; try discriminate.
  inversion H as [|? ? Hc _]; subst. simpl in Hc.
  apply N.eqb_eq in Hc. now subst.
Qed.

Lemma accepts_part (pre : jsstring) :
  accepts (CNeg (CUnion CSpace (CChar 64))) pre <-> Forall part_char pre.
Proof.
  unfold accepts, part_char. rewrite !Forall_forall.
  split; intros H c Hc; specialize (H c Hc); simpl in *.
  - rewrite negb_true_iff, orb_false_iff in H. destruct H as [H1 H2].
    split; [assumption|]. now apply N.eqb_neq.
  - destruct H as [H1 H2]. apply N.eqb_neq in H2.
    now rewrite H1, H2.
Qed.

Lemma length_pos_not_nil (A : Type) (l : list A) : 1 <= List.length l <-> l <> [].
Proof. destruct l; simpl; split; try congruence; lia. Qed.

(** The pattern of [validateEmail] is the shape [local@domain.tld]. *)
Lemma validateEmail_shape (s : jsstring) :
  FormScreen.validateEmail s = true <-> email_shape s.
Proof.
  unfold FormScreen.validateEmail, FormScreen.emailRegex. simpl seq.
  rewrite test_anchored. unfold email_shape. split.
  - intros (st' & m1 & (l & Hs1 & Hp1 & Hc1 & Ha1 & Hl1 & _)
                & m2 & (a & Hs2 & Hp2 & Hc2 & Ha2 & Hl2 & Hh2)
                & m3 & (d & Hs3 & Hp3 & Hc3 & Ha3 & Hl3 & _)
                & m4 & (p & Hs4 & Hp4 & Hc4 & Ha4 & Hl4 & Hh4)
                & m5 & (t & Hs5 & Hp5 & Hc5 & Ha5 & Hl5 & _)
                & He & ->).
    simpl in *.
    apply accepts_char_one in Ha2; [|lia].
    apply accepts_char_one in Ha4; [|lia].
    exists l, d, t. subst a p.
    rewrite Hs1, Hs2, Hs3, Hs4, Hs5, He, app_nil_r.
    repeat split; try (now apply length_pos_not_nil); now apply accepts_part.
  - intros (l & d & t & -> & Hl & Hd & Ht & Fl & Fd & Ft).
    set (n1 := List.length l). set (n3 := List.length d).
    exists (MState (n1 + 1 + n3 + 1 + List.length t) [] []).
    exists (MState n1 ([64%N] ++ d ++ [46%N] ++ t) []). split.
    { exists l. simpl. repeat split; try (now apply length_pos_not_nil).
      now apply accepts_part. }
    exists (MState (n1 + 1) (d ++ [46%N] ++ t) []). split.
    { exists [64%N]. simpl. repeat split; try lia.
      repeat constructor. }
    exists (MState (n1 + 1 + n3) ([46%N] ++ t) []). split.
    { exists d. simpl. repeat split; try (now apply length_pos_not_nil).
      now apply accepts_part. }
    exists (MState (n1 + 1 + n3 + 1) t []). split.
    { exists [46%N]. simpl. repeat split; try lia.
      repeat constructor. }
    exists (MState (n1 + 1 + n3 + 1 + List.length t) [] []). split.
    { exists t. simpl. rewrite app_nil_r.
      repeat split; try (now apply length_pos_not_nil).
      now apply accepts_part. }
    simpl. split; reflexivity.
Qed.

(** The login screen validates an address with the same pattern. *)
Lemma login_validateEmail (s : jsstring) :
  LoginScreen.validateEmail s = FormScreen.validateEmail s.
Proof. reflexivity. Qed.

(** An address of the right shape is not empty after trim. *)
Lemma email_shape_required (s : jsstring) : email_shape s -> required s.
Proof.
  intros (l & d & t & -> & _). unfold required.
  apply (@trim_not_nil _ 64%N); [|reflexivity].
  apply in_or_app. right. now left.
Qed.

Lemma delete_non_digits (s : jsstring) : delete_all (CNeg CDigit) s = digits s.
Proof.
  unfold delete_all, digits. apply filter_ext. intros c. simpl.
  apply negb_involutive.
Qed.

Lemma digits_all_digits (s : jsstring) : all_digits (digits s).
Proof.
  unfold all_digits, digits. apply Forall_forall. intros c Hc.
  now apply filter_In in Hc.
Qed.

(** Stripping the non-digits of a string of digits changes nothing. *)
Lemma digits_id (d : jsstring) : all_digits d -> digits d = d.
Proof.
  unfold all_digits, digits. induction 1 as [|c d Hc _ IH]; simpl;
    [reflexivity | now rewrite Hc, IH].
Qed.

Lemma digits_app (a b : jsstring) : digits (a ++ b) = digits a ++ digits b.
Proof. apply filter_app. Qed.

Lemma digit_range (c : N) : is_digit c = true <-> (48 <= c <= 57)%N.
Proof. unfold is_digit. rewrite andb_true_iff, !N.leb_le. tauto. Qed.

Lemma digit_not_ws (c : N) : is_digit c = true -> is_ws c = false.
Proof.
  intros H. apply digit_range in H. unfold is_ws.
  repeat match goal with
         | |- (_ || _)%bool = false => apply orb_false_iff; split
         | |- (_ && _)%bool = false => apply andb_false_iff
         | |- (_ =? _)%N = false => apply N.eqb_neq; lia
         end.
  - right. apply N.leb_gt. lia.
  - left. apply N.leb_gt. lia.
Qed.

Lemma digit_not_char (x c : N) :
  is_digit c = true -> is_digit x = false -> cls_mem (CChar x) c = false.
Proof.
  intros Hc Hx. simpl. apply N.eqb_neq. intros ->. congruence.
Qed.

Lemma digit_not_sep (c : N) :
  is_digit c = true -> cls_mem (CUnion CSpace (CChar 45)) c = false.
Proof.
  intros H. simpl. rewrite (digit_not_ws _ H). simpl.
  apply digit_range in H. apply N.eqb_neq. lia.
Qed.

(** A class without digits matches nothing at the start of digits. *)
Lemma accepts_no_digit (k : cls) (pre : jsstring) :
  (forall c, is_digit c = true -> cls_mem k c = false) ->
  accepts k pre -> all_digits pre -> pre = [].
Proof.
  intros Hk Ha Hd. destruct pre as [|c pre]; [reflexivity|].
  inversion Ha; inversion Hd; subst.
  rewrite Hk in * by assumption. discriminate.
Qed.

Lemma all_digits_app (a b : jsstring) :
  all_digits (a ++ b) <-> all_digits a /\ all_digits b.
Proof. apply Forall_app. Qed.

Lemma accepts_digits (d : jsstring) : accepts CDigit d <-> all_digits d.
Proof. reflexivity. Qed.

(** On a string of digits the pattern of [validatePhone] asks for two
    digits, four or five digits and four digits: its optional parentheses
    and separators find nothing to match. *)
Lemma validatePhone_digits (d : jsstring) :
  all_digits d -> (test FormScreen.phoneRegex d = true <-> phone_shape d).
Proof.
  intros Hd. unfold FormScreen.phoneRegex. simpl seq.
  rewrite test_anchored. unfold phone_shape. split.
  - intros (st' & m1 & (p1 & Hs1 & _ & _ & Ha1 & _ & _)
                & m2 & (p2 & Hs2 & _ & _ & Ha2 & Hl2 & Hh2)
                & m3 & (p3 & Hs3 & _ & _ & Ha3 & _ & _)
                & m4 & (p4 & Hs4 & _ & _ & Ha4 & _ & _)
                & m5 & (p5 & Hs5 & _ & _ & Ha5 & Hl5 & Hh5)
                & m6 & (p6 & Hs6 & _ & _ & Ha6 & _ & _)
                & m7 & (p7 & Hs7 & _ & _ & Ha7 & Hl7 & Hh7)
                & He & ->).
    simpl in *.
    rewrite Hs1, Hs2, Hs3, Hs4, Hs5, Hs6, Hs7, He, app_nil_r in Hd.
    repeat (apply all_digits_app in Hd; destruct Hd as [? Hd]).
    apply accepts_no_digit in Ha1;
      [|intros; now apply digit_not_char | assumption].
    apply accepts_no_digit in Ha3;
      [|intros; now apply digit_not_char | assumption].
    apply accepts_no_digit in Ha4;
      [|intros; now apply digit_not_sep | assumption].
    apply accepts_no_digit in Ha6;
      [|intros; now apply digit_not_sep | assumption].
    subst p1 p3 p4 p6. simpl in *.
    exists p2, p5, p7.
    rewrite Hs1, Hs2, Hs3, Hs4, Hs5, Hs6, Hs7, He, app_nil_r.
    repeat split; lia.
  - intros (a & b & c & -> & La & Lb & Lc).
    apply all_digits_app in Hd. destruct Hd as [Da Hd].
    apply all_digits_app in Hd. destruct Hd as [Db Dc].
    exists (MState (2 + List.length b + 4) [] []).
    exists (MState 0 (a ++ b ++ c) []). split.
    { exists []. simpl. repeat split; try lia. constructor. }
    exists (MState 2 (b ++ c) []). split.
    { exists a. simpl. repeat split; try lia. assumption. }
    exists (MState 2 (b ++ c) []). split.
    { exists []. simpl. repeat split; try lia. constructor. }
    exists (MState 2 (b ++ c) []). split.
    { exists []. simpl. repeat split; try lia. constructor. }
    exists (MState (2 + List.length b) c []). split.
    { exists b. simpl. repeat split; try lia. assumption. }
    exists (MState (2 + List.length b) c []). split.
    { exists []. simpl. repeat split; try lia. constructor. }
    exists (MState (2 + List.length b + 4) [] []). split.
    { exists c. simpl. rewrite app_nil_r. repeat split; try lia. assumption. }
    simpl. split; reflexivity.
Qed.

(** [validatePhone] looks at the digits only: there must be 10 or 11. *)
Lemma validatePhone_shape (s : jsstring) :
  FormScreen.validatePhone s = true <-> phone_shape (digits s).
Proof.
  unfold FormScreen.validatePhone. rewrite delete_non_digits.
  apply validatePhone_digits, digits_all_digits.
Qed.

Lemma phone_shape_length (d : jsstring) :
  phone_shape d <-> List.length d = 10 \/ List.length d = 11.
Proof.
  unfold phone_shape. split.
  - intros (a & b & c & -> & La & Lb & Lc). rewrite !length_app. lia.
  - intros H.
    exists (firstn 2 d), (firstn (List.length d - 6) (skipn 2 d)),
           (skipn (List.length d - 6) (skipn 2 d)).
    rewrite firstn_skipn, firstn_skipn.
    rewrite !length_firstn, !length_skipn. repeat split; lia.
Qed.

(** A phone number with a digit is not empty after trim. *)
Lemma phone_shape_required (s : jsstring) : phone_shape (digits s) -> required s.
Proof.
  intros H. apply phone_shape_length in H.
  destruct (digits s) as [|c d] eqn:E; [simpl in H; lia|].
  assert (Hin : In c (digits s)) by (rewrite E; now left).
  apply filter_In in Hin. destruct Hin as [Hin Hc].
  apply (@trim_not_nil _ c Hin). now apply digit_not_ws.
Qed.

(** What a group captures: the input between the two states. *)
Lemma captured (st st' : mstate) (pre : jsstring) :
  rest st = pre ++ rest st' -> pos st' = pos st + List.length pre ->
  firstn (pos st' - pos st) (rest st) = pre.
Proof.
  intros Hs Hp. rewrite Hs, Hp.
  replace (pos st + List.length pre - pos st) with (List.length pre + 0) by lia.
  rewrite firstn_app_2. simpl. apply app_nil_r.
Qed.

(** A match of the pattern of [formatPhone] splits the input in its three
    groups. *)
Lemma format_exec_sound (d : jsstring) (m : mstate) :
  exec FormScreen.formatRegex d = Some m ->
  exists a b c,
    d = a ++ b ++ c /\
    List.length a = 2 /\ (List.length b = 4 \/ List.length b = 5) /\
    List.length c = 4 /\
    group m 1 = Some a /\ group m 2 = Some b /\ group m 3 = Some c.
Proof.
  unfold FormScreen.formatRegex. simpl seq. rewrite exec_anchored.
  intros H. apply match_re_sound in H.
  destruct H as (st' & (m1 & (n1 & (a & Hs1 & Hp1 & Hc1 & _ & Hl1 & Hh1) & ->)
                      & m2 & (n2 & (b & Hs2 & Hp2 & Hc2 & _ & Hl2 & Hh2) & ->)
                      & m3 & (n3 & (c & Hs3 & Hp3 & Hc3 & _ & Hl3 & Hh3) & ->)
                      & He & ->) & Hm).
  injection Hm as <-.
  exists a, b, c. simpl in *.
  pose proof (@captured (MState 0 d []) n1 a Hs1 Hp1) as C1.
  pose proof (@captured (MState (pos n1) (rest n1)
                                ((1, firstn (pos n1 - 0) d) :: caps n1))
                        n2 b Hs2 Hp2) as C2.
  pose proof (@captured (MState (pos n2) (rest n2)
                                ((2, firstn (pos n2 - pos n1) (rest n1)) :: caps n2))
                        n3 c Hs3 Hp3) as C3.
  simpl in C1, C2, C3.
  unfold group. simpl. rewrite Hc3. simpl. rewrite Hc2. simpl.
  rewrite C1, C2, C3.
  rewrite Hs1, Hs2, Hs3, He, app_nil_r.
  repeat split; lia.
Qed.

(** The pattern of [formatPhone] matches every string of 10 or 11 digits. *)
Lemma format_exec_complete (d : jsstring) :
  all_digits d -> phone_shape d -> exec FormScreen.formatRegex d <> None.
Proof.
  intros Hd (a & b & c & -> & La & Lb & Lc).
  apply all_digits_app in Hd. destruct Hd as [Da Hd].
  apply all_digits_app in Hd. destruct Hd as [Db Dc].
  unfold FormScreen.formatRegex. simpl seq. rewrite exec_anchored.
  eapply match_re_complete; [|discriminate].
  simpl.
  eexists. split.
  { exists (MState 2 (b ++ c) []). split; [|reflexivity].
    exists a. simpl. repeat split; try lia. assumption. }
  eexists. split.
  { exists (MState (2 + List.length b) c
                   [(1, firstn (2 - 0) (a ++ b ++ c))]). split; [|reflexivity].
    exists b. simpl. repeat split; try lia. assumption. }
  eexists. split.
  { exists (MState (2 + List.length b + 4) []
                   [(2, firstn (2 + List.length b - 2) (b ++ c));
                    (1, firstn (2 - 0) (a ++ b ++ c))]). split; [|reflexivity].
    exists c. simpl. rewrite app_nil_r. repeat split; try lia. assumption. }
  simpl. split; reflexivity.
Qed.

(** [formatPhone] either rewrites the 10 or 11 digits of its input or
    returns the input. *)
Lemma formatPhone_cases (s : jsstring) :
  (exists a b c,
      digits s = a ++ b ++ c /\
      List.length a = 2 /\ (List.length b = 4 \/ List.length b = 5) /\
      List.length c = 4 /\
      FormScreen.formatPhone s = formatted a b c) \/
  (~ phone_shape (digits s) /\ FormScreen.formatPhone s = s).
Proof.
  unfold FormScreen.formatPhone. rewrite delete_non_digits.
  destruct (exec FormScreen.formatRegex (digits s)) as [m|] eqn:E.
  - left. apply format_exec_sound in E.
    destruct E as (a & b & c & Hd & La & Lb & Lc & G1 & G2 & G3).
    exists a, b, c. rewrite G1, G2, G3. now repeat split.
  - right. split; [|reflexivity]. intros H.
    now apply (format_exec_complete (digits_all_digits s)) in H.
Qed.

Lemma digits_formatted (a b c : jsstring) :
  all_digits (a ++ b ++ c) -> digits (formatted a b c) = a ++ b ++ c.
Proof.
  intros Hd.
  apply all_digits_app in Hd. destruct Hd as [Da Hd].
  apply all_digits_app in Hd. destruct Hd as [Db Dc].
  unfold formatted. rewrite !digits_app.
  rewrite (digits_id Da), (digits_id Db), (digits_id Dc). reflexivity.
Qed.

(** [formatPhone] keeps the digits of its input. *)
Lemma formatPhone_digits (s : jsstring) :
  digits (FormScreen.formatPhone s) = digits s.
Proof.
  destruct (formatPhone_cases s) as [(a & b & c & Hd & _ & _ & _ & ->) | [_ ->]];
    [|reflexivity].
  rewrite Hd. apply digits_formatted. rewrite <- Hd. apply digits_all_digits.
Qed.

End PatternFacts.


(* ================================================================== *)
(** * The validation pass of the sign-up form *)
(* ================================================================== *)

Module FormFacts.
Import JS Sem Rules Blocks JSFacts PatternFacts FormScreen.
Local Open Scope string_scope.

Section BlockFacts.
Variable get : FormErrors.t -> option string.
Variable set : option string -> FormErrors.t -> FormErrors.t.
Variables (c1 c2 : bool) (m1 m2 : string) (v : FormErrors.t * bool).

Lemma block_same :
  (forall x e, get (set x e) = x) ->
  get (fst v) = None ->
  get (fst (block set c1 m1 c2 m2 v)) = verdict c1 m1 c2 m2.
Proof.
  intros H Hv. unfold block, verdict, flag.
  destruct c1; [apply H|]. destruct c2; [apply H | exact Hv].
Qed.

Lemma block_other :
  (forall x e, get (set x e) = get e) ->
  get (fst (block set c1 m1 c2 m2 v)) = get (fst v).
Proof.
  intros H. unfold block, flag.
  destruct c1; [apply H|]. destruct c2; [apply H | reflexivity].
Qed.

Lemma block_flag :
  snd (block set c1 m1 c2 m2 v) = negb c1 && negb c2 && snd v.
Proof. unfold block, flag. now destruct c1, c2. Qed.
End BlockFacts.

Lemma verdict_none (c1 c2 : bool) (m1 m2 : string) :
  verdict c1 m1 c2 m2 = None <-> c1 = false /\ c2 = false.
Proof. unfold verdict. destruct c1, c2; split; intros H; try easy. Qed.

Lemma errors_ext (e e' : FormErrors.t) :
  FormErrors.firstName e = FormErrors.firstName e' ->
  FormErrors.lastName e = FormErrors.lastName e' ->
  FormErrors.email e = FormErrors.email e' ->
  FormErrors.phone e = FormErrors.phone e' ->
  FormErrors.birthDate e = FormErrors.birthDate e' ->
  FormErrors.country e = FormErrors.country e' ->
  FormErrors.bio e = FormErrors.bio e' ->
  e = e'.
Proof. destruct e, e'; simpl; intros; congruence. Qed.

(** [validateForm] as the sequence of its seven blocks. *)
Lemma validateForm_blocks (today : Date) (st : State) :
  validateForm today st =
  let d := formData st in
  let age := (getFullYear today - getFullYear (birthDate d))%Z in
  let v :=
    block FormErrors.set_bio
      (500 <? List.length (bio d))%nat "Bio deve ter no máximo 500 caracteres"
      false EmptyString
    (block FormErrors.set_country
      (negb (truthy (country d))) "País é obrigatório" false EmptyString
    (block FormErrors.set_birthDate
      (age <? 13)%Z "Idade mínima é 13 anos"
      (age >? 120)%Z "Data de nascimento inválida"
    (block FormErrors.set_phone
      (negb (truthy (trim (phone d)))) "Telefone é obrigatório"
      (negb (validatePhone (phone d))) "Telefone inválido"
    (block FormErrors.set_email
      (negb (truthy (trim (email d)))) "Email é obrigatório"
      (negb (validateEmail (email d))) "Email inválido"
    (block FormErrors.set_lastName
      (negb (truthy (trim (lastName d)))) "Sobrenome é obrigatório"
      (List.length (lastName d) <? 2)%nat "Sobrenome deve ter pelo menos 2 caracteres"
    (block FormErrors.set_firstName
      (negb (truthy (trim (firstName d)))) "Nome é obrigatório"
      (List.length (firstName d) <? 2)%nat "Nome deve ter pelo menos 2 caracteres"
      (FormErrors.empty, true))))))) in
  (snd v, setErrors (fun _ => fst v) st).
Proof. reflexivity. Qed.

Ltac through g := repeat (rewrite (block_other g) by (intros; reflexivity)).

Ltac field_of g :=
  cbn [FormErrors.firstName FormErrors.lastName FormErrors.email
       FormErrors.phone FormErrors.birthDate FormErrors.country FormErrors.bio];
  through g;
  rewrite (block_same g);
  [reflexivity | intros; reflexivity | through g; reflexivity].

(** The errors a pass leaves, field by field. *)
Lemma validateForm_errors (today : Date) (st : State) :
  let d := formData st in
  let age := (getFullYear today - getFullYear (birthDate d))%Z in
  errors (snd (validateForm today st)) =
  FormErrors.Mk
    (verdict (negb (truthy (trim (firstName d)))) "Nome é obrigatório"
             (List.length (firstName d) <? 2)%nat "Nome deve ter pelo menos 2 caracteres")
    (verdict (negb (truthy (trim (lastName d)))) "Sobrenome é obrigatório"
             (List.length (lastName d) <? 2)%nat "Sobrenome deve ter pelo menos 2 caracteres")
    (verdict (negb (truthy (trim (email d)))) "Email é obrigatório"
             (negb (validateEmail (email d))) "Email inválido")
    (verdict (negb (truthy (trim (phone d)))) "Telefone é obrigatório"
             (negb (validatePhone (phone d))) "Telefone inválido")
    (verdict (age <? 13)%Z "Idade mínima é 13 anos"
             (age >? 120)%Z "Data de nascimento inválida")
    (verdict (negb (truthy (country d))) "País é obrigatório" false EmptyString)
    (verdict (500 <? List.length (bio d))%nat "Bio deve ter no máximo 500 caracteres"
             false EmptyString).
Proof.
  intros d age. rewrite validateForm_blocks. cbv zeta.
  cbn [snd errors setErrors]. fold d. fold age.
  apply errors_ext.
  - field_of FormErrors.firstName.
  - field_of FormErrors.lastName.
  - field_of FormErrors.email.
  - field_of FormErrors.phone.
  - field_of FormErrors.birthDate.
  - field_of FormErrors.country.
  - field_of FormErrors.bio.
Qed.

(** The flag a pass returns. *)
Lemma validateForm_flag (today : Date) (st : State) :
  let d := formData st in
  let age := (getFullYear today - getFullYear (birthDate d))%Z in
  fst (validateForm today st) =
  negb (500 <? List.length (bio d))%nat &&
  (negb (negb (truthy (country d))) &&
  (negb (age <? 13)%Z && negb (age >? 120)%Z &&
  (negb (negb (truthy (trim (phone d)))) && negb (negb (validatePhone (phone d))) &&
  (negb (negb (truthy (trim (email d)))) && negb (negb (validateEmail (email d))) &&
  (negb (negb (truthy (trim (lastName d)))) && negb (List.length (lastName d) <? 2)%nat &&
  (negb (negb (truthy (trim (firstName d)))) && negb (List.length (firstName d) <? 2)%nat)))))).
Proof.
  intros d age. rewrite validateForm_blocks. cbv zeta. cbn [fst]. fold d. fold age.
  rewrite !block_flag. cbn [snd negb]. now rewrite !andb_true_r.
Qed.

(** A pass leaves the other cells of the state alone. *)
Lemma validateForm_frame (today : Date) (st : State) :
  formData (snd (validateForm today st)) = formData st /\
  showDatePicker (snd (validateForm today st)) = showDatePicker st /\
  isLoading (snd (validateForm today st)) = isLoading st.
Proof. now rewrite validateForm_blocks. Qed.

Lemma required_iff (s : jsstring) : negb (truthy (trim s)) = false <-> required s.
Proof. rewrite negb_false_iff. apply truthy_true. Qed.

Lemma email_ok_iff (s : jsstring) : negb (validateEmail s) = false <-> email_shape s.
Proof. rewrite negb_false_iff. apply validateEmail_shape. Qed.

Lemma phone_ok_iff (s : jsstring) :
  negb (validatePhone s) = false <-> phone_shape (digits s).
Proof. rewrite negb_false_iff. apply validatePhone_shape. Qed.

(** A field has no entry after a pass exactly when it satisfies its rule. *)
Lemma no_error_iff_rule (today : Date) (st : State) (field : Field) :
  error_of (errors (snd (validateForm today st))) field = None <->
  form_rule today (formData st) field.
Proof.
  rewrite validateForm_errors.
  destruct field; cbn [error_of form_rule FormErrors.firstName FormErrors.lastName
                       FormErrors.email FormErrors.phone FormErrors.birthDate
                       FormErrors.country FormErrors.bio];
    try (split; [intros _; exact I | reflexivity]);
    rewrite verdict_none.
  - now rewrite required_iff, Nat.ltb_ge.
  - now rewrite required_iff, Nat.ltb_ge.
  - now rewrite required_iff, email_ok_iff.
  - now rewrite required_iff, phone_ok_iff.
  - unfold age, getFullYear. rewrite Z.ltb_ge, Z.gtb_ltb, Z.ltb_ge. tauto.
  - rewrite negb_false_iff, truthy_true. tauto.
  - rewrite Nat.ltb_ge. tauto.
Qed.

(** The messages of a pass are not empty. *)
Lemma error_not_empty (today : Date) (st : State) (field : Field) (m : string) :
  error_of (errors (snd (validateForm today st))) field = Some m ->
  m <> EmptyString.
Proof.
  rewrite validateForm_errors.
  destruct field; cbn [error_of FormErrors.firstName FormErrors.lastName
                       FormErrors.email FormErrors.phone FormErrors.birthDate
                       FormErrors.country FormErrors.bio];
    try discriminate; unfold verdict;
    repeat match goal with
           | |- context [if ?b then _ else _] => destruct b
           end;
    intros [= <-]; discriminate.
Qed.

(** The flag is raised exactly when no field got a message. *)
Lemma flag_iff_no_errors (today : Date) (st : State) :
  fst (validateForm today st) = true <->
  errors (snd (validateForm today st)) = FormErrors.empty.
Proof.
  rewrite validateForm_flag, validateForm_errors. cbv zeta.
  unfold FormErrors.empty. split.
  - rewrite !andb_true_iff, !negb_true_iff.
    intros (H7 & H6 & (H5 & H5') & (H4 & H4') & (H3 & H3') & (H2 & H2') & H1 & H1').
    now rewrite H1, H1', H2, H2', H3, H3', H4, H4', H5, H5', H6, H7.
  - intros [= H1 H2 H3 H4 H5 H6 H7].
    apply verdict_none in H1, H2, H3, H4, H5, H6, H7.
    destruct H1 as [-> ->], H2 as [-> ->], H3 as [-> ->], H4 as [-> ->],
             H5 as [-> ->], H6 as [-> _], H7 as [-> _].
    reflexivity.
Qed.

Lemma empty_iff_no_entry (e : FormErrors.t) :
  e = FormErrors.empty <-> forall field, error_of e field = None.
Proof.
  split.
  - intros -> field. now destruct field.
  - intros H. apply errors_ext; simpl.
    + apply (H K_firstName).
    + apply (H K_lastName).
    + apply (H K_email).
    + apply (H K_phone).
    + apply (H K_birthDate).
    + apply (H K_country).
    + apply (H K_bio).
Qed.

End FormFacts.

(* ================================================================== *)
(** * The validation pass of the login form *)
(* ================================================================== *)

Module LoginFacts.
Import JS Sem Rules JSFacts PatternFacts LoginScreen.
Local Open Scope string_scope.

Lemma login_errors (st : State) :
  errors (snd (validateForm st)) =
  Errors.Mk
    (if negb (truthy (trim (email st))) then "Email é obrigatório"
     else if negb (validateEmail (email st)) then "Email inválido"
          else EmptyString)
    (if negb (truthy (trim (password st))) then "Senha é obrigatória"
     else if (List.length (password st) <? 6)%nat
          then "Senha deve ter pelo menos 6 caracteres"
          else EmptyString).
Proof.
  unfold validateForm, flag. cbv zeta.
  repeat match goal with
         | |- context [if ?b then _ else _] => destruct b
         end; reflexivity.
Qed.

Lemma login_flag (st : State) :
  fst (validateForm st) =
  negb (negb (truthy (trim (email st)))) && negb (negb (validateEmail (email st))) &&
  (negb (negb (truthy (trim (password st)))) &&
   negb (List.length (password st) <? 6)%nat).
Proof.
  unfold validateForm, flag. cbv zeta.
  repeat match goal with
         | |- context [if ?b then _ else _] => destruct b
         end; reflexivity.
Qed.

Lemma login_frame (st : State) :
  email (snd (validateForm st)) = email st /\
  password (snd (validateForm st)) = password st /\
  showPassword (snd (validateForm st)) = showPassword st /\
  isLoading (snd (validateForm st)) = isLoading st.
Proof. unfold validateForm. simpl. tauto. Qed.

(** A field shows no message after a pass exactly when it satisfies its
    rule. *)
Lemma login_no_error_iff_rule (st : State) (field : Field) :
  shown (errors (snd (validateForm st))) field = None <-> login_rule st field.
Proof.
  rewrite login_errors. destruct field; cbn [shown login_rule Errors.email Errors.password].
  - rewrite <- FormFacts.required_iff, <- FormFacts.email_ok_iff.
    change (FormScreen.validateEmail (email st)) with (validateEmail (email st)).
    destruct (negb (truthy (trim (email st)))), (negb (validateEmail (email st)));
      simpl; split; intros H; try easy; destruct H; discriminate.
  - rewrite <- FormFacts.required_iff, <- Nat.ltb_ge.
    destruct (negb (truthy (trim (password st)))),
             (List.length (password st) <? 6)%nat;
      simpl; split; intros H; try easy; destruct H; discriminate.
Qed.

Lemma login_flag_iff_no_errors (st : State) :
  fst (validateForm st) = true <->
  forall field, shown (errors (snd (validateForm st))) field = None.
Proof.
  rewrite login_flag, login_errors. split.
  - rewrite !andb_true_iff, !negb_true_iff. intros [[H1 H2] [H3 H4]] field.
    destruct field; cbn [shown Errors.email Errors.password];
      now rewrite ?H1, ?H2, ?H3, ?H4.
  - intros H. pose proof (H K_email) as He. pose proof (H K_password) as Hp.
    cbn [shown Errors.email Errors.password] in He, Hp.
    destruct (negb (truthy (trim (email st)))); [discriminate|].
    destruct (negb (validateEmail (email st))); [discriminate|].
    destruct (negb (truthy (trim (password st)))); [discriminate|].
    destruct (List.length (password st) <? 6)%nat; [discriminate|].
    reflexivity.
Qed.

Lemma shown_not_empty (e : Errors.t) (field : Field) (m : string) :
  shown e field = Some m -> m <> EmptyString.
Proof.
  unfold shown. destruct field;
    [destruct (Errors.email e) | destruct (Errors.password e)];
    try discriminate; intros [= <-]; discriminate.
Qed.

End LoginFacts.

(* ================================================================== *)
(** * The properties of the specification: validation *)
(* ================================================================== *)

Import JS Sem Rules Samples.
Local Open Scope string_scope.

Lemma ana_fields_valid : form_fields_valid a_day ana.
Proof.
  unfold form_fields_valid, required.
  split; [vm_compute; discriminate|]. split; [simpl; lia|].
  split; [vm_compute; discriminate|]. split; [simpl; lia|].
  split; [apply PatternFacts.validateEmail_shape; reflexivity|].
  split; [apply PatternFacts.validatePhone_shape; reflexivity|].
  split; [vm_compute; split; discriminate|].
  split; [vm_compute; discriminate | simpl; lia].
Qed.

(** C1, as amended: when every field satisfies its rule (names not empty
    after trim and of length 2 or more, email and phone of the shape of
    their patterns, age from 13 to 120, a country selected, a bio of at
    most 500 code units; on the login form an email of the right shape and
    a password that is not empty after trim and of length 6 or more),
    [validateForm] returns [true] and leaves no error; and on both screens
    it returns [true] exactly when it leaves no error. *)
Theorem validate_accepts_valid_fields :
  (forall today st,
      form_fields_valid today (FormScreen.formData st) ->
      fst (FormScreen.validateForm today st) = true /\
      FormScreen.errors (snd (FormScreen.validateForm today st))
      = FormScreen.FormErrors.empty) /\
  (forall today st,
      fst (FormScreen.validateForm today st) = true <->
      FormScreen.errors (snd (FormScreen.validateForm today st))
      = FormScreen.FormErrors.empty) /\
  (forall st,
      email_shape (LoginScreen.email st) ->
      required (LoginScreen.password st) ->
      6 <= List.length (LoginScreen.password st) ->
      fst (LoginScreen.validateForm st) = true /\
      forall field,
        LoginScreen.shown (LoginScreen.errors (snd (LoginScreen.validateForm st)))
                          field = None) /\
  (forall st,
      fst (LoginScreen.validateForm st) = true <->
      forall field,
        LoginScreen.shown (LoginScreen.errors (snd (LoginScreen.validateForm st)))
                          field = None).
Proof.
  split; [|split; [|split]].
  - intros today st (F1 & F2 & L1 & L2 & E & P & A & C & B).
    assert (H : FormScreen.errors (snd (FormScreen.validateForm today st))
                = FormScreen.FormErrors.empty).
    { apply FormFacts.empty_iff_no_entry. intros field.
      apply FormFacts.no_error_iff_rule.
      destruct field; simpl; auto.
      - split; [now apply PatternFacts.email_shape_required | assumption].
      - split; [now apply PatternFacts.phone_shape_required | assumption]. }
    split; [now apply FormFacts.flag_iff_no_errors | exact H].
  - apply FormFacts.flag_iff_no_errors.
  - intros st E R L.
    assert (H : forall field,
               LoginScreen.shown
                 (LoginScreen.errors (snd (LoginScreen.validateForm st))) field = None).
    { intros field. apply LoginFacts.login_no_error_iff_rule.
      destruct field; simpl; split; auto.
      now apply PatternFacts.email_shape_required. }
    split; [now apply LoginFacts.login_flag_iff_no_errors | exact H].
  - apply LoginFacts.login_flag_iff_no_errors.
Qed.

Lemma validate_accepts_valid_fields_witness :
  (fst (FormScreen.validateForm a_day ana_form) = true /\
   FormScreen.errors (snd (FormScreen.validateForm a_day ana_form))
   = FormScreen.FormErrors.empty) /\
  (fst (LoginScreen.validateForm ana_login) = true /\
   forall field,
     LoginScreen.shown (LoginScreen.errors (snd (LoginScreen.validateForm ana_login)))
                       field = None).
Proof.
  destruct validate_accepts_valid_fields as (HF & _ & HL & _).
  split.
  - apply HF. exact ana_fields_valid.
  - apply HL.
    + apply PatternFacts.validateEmail_shape. reflexivity.
    + unfold required. vm_compute. discriminate.
    + simpl. lia.
Defined.

(** C1 as stated fails on the login form: a password of six spaces has
    length 6, the email is valid, and [validateForm] returns [false] with
    the password flagged as missing. *)
Lemma blank_password_rejected :
  email_shape (LoginScreen.email blank_login) /\
  6 <= List.length (LoginScreen.password blank_login) /\
  fst (LoginScreen.validateForm blank_login) = false /\
  LoginScreen.shown (LoginScreen.errors (snd (LoginScreen.validateForm blank_login)))
                    LoginScreen.K_password = Some "Senha é obrigatória".
Proof.
  split; [apply PatternFacts.validateEmail_shape; reflexivity|].
  split; [simpl; lia|]. split; reflexivity.
Qed.

(** The table's rule implies nothing more than the rule the code applies,
    and for the email the two are one rule. *)
Lemma login_rule_implies_tabled (st : LoginScreen.State) (field : LoginScreen.Field) :
  login_rule st field -> login_rule_tabled st field.
Proof.
  assert (H : forall s, required s -> s <> []).
  { intros s Hs ->. now apply Hs. }
  destruct field; simpl; intros [Hr Hs]; split; auto.
Qed.

Lemma login_email_rule_tabled (st : LoginScreen.State) :
  login_rule st LoginScreen.K_email <-> login_rule_tabled st LoginScreen.K_email.
Proof.
  split; [apply login_rule_implies_tabled|].
  simpl. intros [_ Hs]. split; [|exact Hs].
  now apply PatternFacts.email_shape_required.
Qed.

(** C2 as stated fails on the login form: a password of six spaces is not
    empty and has length 6, so it passes the rule of the table, and yet
    the pass leaves it an entry. *)
Lemma blank_password_has_entry :
  login_rule_tabled blank_login LoginScreen.K_password /\
  LoginScreen.shown (LoginScreen.errors (snd (LoginScreen.validateForm blank_login)))
                    LoginScreen.K_password = Some "Senha é obrigatória".
Proof.
  split; [|reflexivity]. simpl. split; [discriminate | lia].
Qed.

(** C2, as amended: after a pass a field has an entry exactly when it fails
    its rule, the rule of the login password being: not empty after trim
    and of length 6 or more (every other rule is the one of the table);
    the entry of a failing field is a message that is not empty and a
    passing field has none.  On the login form the entries are the
    messages the screen shows, the stored strings that are not empty. *)
Theorem errors_iff_rule_fails :
  (forall today st field,
      let e := FormScreen.errors (snd (FormScreen.validateForm today st)) in
      (FormScreen.error_of e field <> None <->
       ~ form_rule today (FormScreen.formData st) field) /\
      (FormScreen.error_of e field = None <->
       form_rule today (FormScreen.formData st) field) /\
      (forall m, FormScreen.error_of e field = Some m -> m <> EmptyString)) /\
  (forall st field,
      let e := LoginScreen.errors (snd (LoginScreen.validateForm st)) in
      (LoginScreen.shown e field <> None <-> ~ login_rule st field) /\
      (LoginScreen.shown e field = None <-> login_rule st field) /\
      (forall m, LoginScreen.shown e field = Some m -> m <> EmptyString)).
Proof.
  split.
  - intros today st field e.
    pose proof (FormFacts.no_error_iff_rule today st field) as H. fold e in H.
    split; [|split].
    + rewrite H. tauto.
    + exact H.
    + intros m. apply FormFacts.error_not_empty.
  - intros st field e.
    pose proof (LoginFacts.login_no_error_iff_rule st field) as H. fold e in H.
    split; [|split].
    + rewrite H. tauto.
    + exact H.
    + intros m. apply LoginFacts.shown_not_empty.
Qed.

(** C3, as amended: the errors and the flag of a pass are a function of
    the form data and of the current year, and of nothing else in the
    state; a second pass in the same year over the unchanged form data
    gives the same errors. *)
Theorem validate_function_of_form_and_year
        (today1 today2 : FormScreen.Date) (st1 st2 : FormScreen.State)
        (Hform : FormScreen.formData st1 = FormScreen.formData st2)
        (Hyear : FormScreen.getFullYear today1 = FormScreen.getFullYear today2) :
  fst (FormScreen.validateForm today1 st1) = fst (FormScreen.validateForm today2 st2) /\
  FormScreen.errors (snd (FormScreen.validateForm today1 st1))
  = FormScreen.errors (snd (FormScreen.validateForm today2 st2)) /\
  FormScreen.errors
    (snd (FormScreen.validateForm today2 (snd (FormScreen.validateForm today1 st1))))
  = FormScreen.errors (snd (FormScreen.validateForm today1 st1)).
Proof.
  destruct (FormFacts.validateForm_frame today1 st1) as (Hf & _).
  rewrite !FormFacts.validateForm_flag, !FormFacts.validateForm_errors. cbv zeta.
  rewrite Hf, Hform, Hyear. auto.
Qed.

Lemma validate_function_of_form_and_year_witness :
  fst (FormScreen.validateForm (FormScreen.MkDate 2026 1 1) ana_form)
  = fst (FormScreen.validateForm (FormScreen.MkDate 2026 12 31)
                                 (FormScreen.setIsLoading true ana_form)) /\
  FormScreen.errors (snd (FormScreen.validateForm (FormScreen.MkDate 2026 1 1) ana_form))
  = FormScreen.errors
      (snd (FormScreen.validateForm (FormScreen.MkDate 2026 12 31)
                                    (FormScreen.setIsLoading true ana_form))) /\
  FormScreen.errors
    (snd (FormScreen.validateForm
            (FormScreen.MkDate 2026 12 31)
            (snd (FormScreen.validateForm (FormScreen.MkDate 2026 1 1) ana_form))))
  = FormScreen.errors (snd (FormScreen.validateForm (FormScreen.MkDate 2026 1 1) ana_form)).
Proof.
  apply (@validate_function_of_form_and_year
           (FormScreen.MkDate 2026 1 1) (FormScreen.MkDate 2026 12 31)
           ana_form (FormScreen.setIsLoading true ana_form));
    reflexivity.
Defined.

(** C3 as stated fails: the same form data, validated on two days of
    different years, gets different errors. *)
Lemma clock_changes_errors :
  FormScreen.errors (snd (FormScreen.validateForm (FormScreen.MkDate 2025 12 31) teen_form))
  <> FormScreen.errors (snd (FormScreen.validateForm (FormScreen.MkDate 2026 1 1) teen_form)) /\
  fst (FormScreen.validateForm (FormScreen.MkDate 2025 12 31) teen_form) = false /\
  fst (FormScreen.validateForm (FormScreen.MkDate 2026 1 1) teen_form) = true.
Proof.
  split; [|split; reflexivity].
  vm_compute. discriminate.
Qed.

(** C7: the phone field is flagged exactly when the string is empty after
    trim or its digits, the other characters stripped, are not the 10 or
    11 digits of an area code of two digits, a prefix of four or five and
    a suffix of four. *)
Theorem phone_flagged_iff (today : FormScreen.Date) (st : FormScreen.State) :
  let p := FormScreen.phone (FormScreen.formData st) in
  let e := FormScreen.FormErrors.phone
             (FormScreen.errors (snd (FormScreen.validateForm today st))) in
  (e <> None <-> trim p = [] \/ ~ phone_shape (digits p)) /\
  (e <> None <->
   trim p = [] \/ ~ (List.length (digits p) = 10 \/ List.length (digits p) = 11)) /\
  (trim p = [] -> e = Some "Telefone é obrigatório") /\
  (trim p <> [] -> ~ phone_shape (digits p) -> e = Some "Telefone inválido").
Proof.
  intros p e.
  assert (He : e = Blocks.verdict (negb (truthy (trim p))) "Telefone é obrigatório"
                                  (negb (FormScreen.validatePhone p)) "Telefone inválido").
  { unfold e. now rewrite FormFacts.validateForm_errors. }
  assert (H1 : e <> None <-> trim p = [] \/ ~ phone_shape (digits p)).
  { rewrite He, <- PatternFacts.validatePhone_shape, <- JSFacts.truthy_false.
    unfold Blocks.verdict.
    destruct (truthy (trim p)), (FormScreen.validatePhone p); simpl;
      split; intros H; try easy; try (now left); try (now right).
    destruct H as [H | H]; [discriminate | now elim H]. }
  split; [exact H1|]. split; [|split].
  - rewrite H1, PatternFacts.phone_shape_length. tauto.
  - intros Ht. rewrite He. apply JSFacts.truthy_false in Ht. now rewrite Ht.
  - intros Ht Hs. rewrite He. apply JSFacts.truthy_true in Ht. rewrite Ht.
    rewrite <- PatternFacts.validatePhone_shape in Hs.
    destruct (FormScreen.validatePhone p); [now elim Hs | reflexivity].
Qed.

(** C8: the age is the current year minus the year of birth, the month and
    the day play no part; the birth date is flagged exactly when the age
    is under 13 or over 120; at 12 it is flagged as under the minimum age
    and at 13 it is not flagged. *)
Theorem birth_date_flagged_iff (today : FormScreen.Date) (st : FormScreen.State) :
  let a := age today (FormScreen.birthDate (FormScreen.formData st)) in
  let e := FormScreen.FormErrors.birthDate
             (FormScreen.errors (snd (FormScreen.validateForm today st))) in
  (e <> None <-> (a < 13 \/ a > 120)%Z) /\
  ((a < 13)%Z -> e = Some "Idade mínima é 13 anos") /\
  ((a > 120)%Z -> e = Some "Data de nascimento inválida") /\
  (a = 12%Z -> e = Some "Idade mínima é 13 anos") /\
  (a = 13%Z -> e = None) /\
  (forall today' born',
      FormScreen.fullYear today' = FormScreen.fullYear today ->
      FormScreen.fullYear born'
      = FormScreen.fullYear (FormScreen.birthDate (FormScreen.formData st)) ->
      FormScreen.FormErrors.birthDate
        (FormScreen.errors
           (snd (FormScreen.validateForm
                   today'
                   (FormScreen.setFormData
                      (FormScreen.set_field FormScreen.K_birthDate born') st))))
      = e).
Proof.
  intros a e.
  assert (He : e = Blocks.verdict (a <? 13)%Z "Idade mínima é 13 anos"
                                  (a >? 120)%Z "Data de nascimento inválida").
  { unfold e. now rewrite FormFacts.validateForm_errors. }
  assert (Hlo : forall x, (x < 13)%Z ->
              Blocks.verdict (x <? 13)%Z "Idade mínima é 13 anos"
                             (x >? 120)%Z "Data de nascimento inválida"
              = Some "Idade mínima é 13 anos").
  { intros x Hx. apply Z.ltb_lt in Hx. unfold Blocks.verdict. now rewrite Hx. }
  split; [|split; [|split; [|split; [|split]]]].
  - rewrite He. unfold Blocks.verdict.
    destruct (Z.ltb_spec a 13); [split; [lia | discriminate]|].
    rewrite Z.gtb_ltb. destruct (Z.ltb_spec 120 a); [split; [lia | discriminate]|].
    split; [congruence | lia].
  - intros H. rewrite He. now apply Hlo.
  - intros H. rewrite He. unfold Blocks.verdict.
    destruct (Z.ltb_spec a 13); [lia|].
    rewrite Z.gtb_ltb. destruct (Z.ltb_spec 120 a); [reflexivity | lia].
  - intros H. rewrite He. apply Hlo. lia.
  - intros H. rewrite He, H. reflexivity.
  - intros today' born' Ht Hb. rewrite He, FormFacts.validateForm_errors.
    cbv zeta. unfold a, age, FormScreen.getFullYear. simpl. now rewrite Ht, Hb.
Qed.

(** Until 13 years have passed since the form was opened, a form whose
    birth date is still the day it was opened fails validation. *)
Lemma default_birth_date_flagged (now today : FormScreen.Date) (st : FormScreen.State) :
  (FormScreen.getFullYear today - FormScreen.getFullYear now < 13)%Z ->
  FormScreen.birthDate (FormScreen.formData st) = now ->
  fst (FormScreen.validateForm today st) = false /\
  FormScreen.FormErrors.birthDate
    (FormScreen.errors (snd (FormScreen.validateForm today st)))
  = Some "Idade mínima é 13 anos".
Proof.
  intros Hy Hb. apply Z.ltb_lt in Hy.
  rewrite FormFacts.validateForm_flag, FormFacts.validateForm_errors. cbv zeta.
  rewrite Hb, Hy. simpl. split; [|reflexivity].
  now rewrite !andb_false_r.
Qed.

(** C10 as stated fails: the form opened on the second of November 2026
    and filled in, its birth date still the default one, passes a
    validation on the same day of 2039; and on the first day of 2027 the
    age computed from the default birth date is 1, not 0. *)
Lemma default_birth_date_passes_later :
  FormScreen.birthDate (FormScreen.formData kept_default)
  = FormScreen.birthDate (FormScreen.formData (FormScreen.initialState None a_day)) /\
  fst (FormScreen.validateForm (FormScreen.MkDate 2039 11 2) kept_default) = true /\
  FormScreen.FormErrors.birthDate
    (FormScreen.errors
       (snd (FormScreen.validateForm (FormScreen.MkDate 2039 11 2) kept_default)))
  = None /\
  age (FormScreen.MkDate 2027 1 1)
      (FormScreen.birthDate (FormScreen.formData (FormScreen.initialState None a_day)))
  = 1%Z.
Proof. repeat split; reflexivity. Qed.

(** C10, as amended: a form opened without initial data has the day it was
    opened as birth date, so the age a validation computes is the number
    of calendar years begun since then, 0 in the year of opening.
    [validateForm] on the initial form values returns [false] at any
    time; and as long as fewer than 13 calendar years have begun since the
    form was opened, it returns [false] with the birth date flagged as
    under the minimum age whatever the other fields hold, until the birth
    date is changed. *)
Theorem fresh_form_fails_validation (now today : FormScreen.Date) :
  let st0 := FormScreen.initialState None now in
  let years := (FormScreen.getFullYear today - FormScreen.getFullYear now)%Z in
  FormScreen.birthDate (FormScreen.formData st0) = now /\
  age today (FormScreen.birthDate (FormScreen.formData st0)) = years /\
  (FormScreen.getFullYear today = FormScreen.getFullYear now ->
   age today (FormScreen.birthDate (FormScreen.formData st0)) = 0%Z) /\
  fst (FormScreen.validateForm today st0) = false /\
  ((years < 13)%Z ->
   forall st,
     FormScreen.birthDate (FormScreen.formData st)
     = FormScreen.birthDate (FormScreen.formData st0) ->
     fst (FormScreen.validateForm today st) = false /\
     FormScreen.FormErrors.birthDate
       (FormScreen.errors (snd (FormScreen.validateForm today st)))
     = Some "Idade mínima é 13 anos").
Proof.
  intros st0 years.
  split; [reflexivity|]. split; [reflexivity|].
  split; [unfold age, FormScreen.getFullYear; simpl; lia|].
  split.
  - rewrite FormFacts.validateForm_flag. cbv zeta.
    change (FormScreen.firstName (FormScreen.formData st0)) with (@nil N).
    cbn [trim trimEnd trimStart rev app truthy negb andb].
    now rewrite !andb_false_r.
  - intros Hy st Hb. now apply (@default_birth_date_flagged now).
Qed.

Lemma fresh_form_fails_validation_witness :
  fst (FormScreen.validateForm (FormScreen.MkDate 2038 12 31) kept_default) = false /\
  FormScreen.FormErrors.birthDate
    (FormScreen.errors
       (snd (FormScreen.validateForm (FormScreen.MkDate 2038 12 31) kept_default)))
  = Some "Idade mínima é 13 anos" /\
  age a_day (FormScreen.birthDate (FormScreen.formData (FormScreen.initialState None a_day)))
  = 0%Z.
Proof.
  destruct (fresh_form_fails_validation a_day (FormScreen.MkDate 2038 12 31))
    as (_ & _ & _ & _ & H).
  destruct (fresh_form_fails_validation a_day a_day) as (_ & _ & H0 & _).
  destruct (H ltac:(vm_compute; reflexivity) kept_default eq_refl) as [H1 H2].
  split; [exact H1|]. split; [exact H2|]. apply H0. reflexivity.
Defined.

(** C9: [formatPhone] keeps the digits of its input; 10 or 11 digits are
    rewritten as [(dd) dddd-dddd] or [(dd) ddddd-dddd] and any other input
    is returned as it is; so formatting twice is formatting once, and
    [validatePhone] gives the same answer before and after. *)
Theorem formatPhone_keeps_digits (s : jsstring) :
  digits (FormScreen.formatPhone s) = digits s /\
  ((exists a b c,
       digits s = (a ++ b ++ c)%list /\
       List.length a = 2 /\ (List.length b = 4 \/ List.length b = 5) /\
       List.length c = 4 /\
       FormScreen.formatPhone s = formatted a b c) \/
   (~ phone_shape (digits s) /\ FormScreen.formatPhone s = s)) /\
  FormScreen.formatPhone (FormScreen.formatPhone s) = FormScreen.formatPhone s /\
  FormScreen.validatePhone (FormScreen.formatPhone s) = FormScreen.validatePhone s.
Proof.
  split; [apply PatternFacts.formatPhone_digits|].
  split; [apply PatternFacts.formatPhone_cases|].
  split.
  - assert (H : forall x,
               FormScreen.formatPhone x
               = match exec FormScreen.formatRegex (digits x) with
                 | Some m =>
                   (lit "(" ++ subst (group m 1) ++ lit ") " ++ subst (group m 2)
                        ++ lit "-" ++ subst (group m 3))%list
                 | None => x
                 end).
    { intros x. unfold FormScreen.formatPhone.
      now rewrite PatternFacts.delete_non_digits. }
    rewrite (H (FormScreen.formatPhone s)), PatternFacts.formatPhone_digits.
    rewrite !(H s).
    now destruct (exec FormScreen.formatRegex (digits s)).
  - unfold FormScreen.validatePhone.
    now rewrite !PatternFacts.delete_non_digits, PatternFacts.formatPhone_digits.
Qed.

(** C7 at a phone number of nine digits, and C8 at the ages 12 and 13. *)
Lemma phone_flagged_iff_witness :
  FormScreen.FormErrors.phone
    (FormScreen.errors
       (snd (FormScreen.validateForm
               a_day
               (FormScreen.setFormData
                  (FormScreen.set_field FormScreen.K_phone (lit "(11) 9999-999"))
                  ana_form))))
  = Some "Telefone inválido".
Proof.
  destruct (phone_flagged_iff
              a_day
              (FormScreen.setFormData
                 (FormScreen.set_field FormScreen.K_phone (lit "(11) 9999-999"))
                 ana_form)) as (_ & _ & _ & H).
  apply H.
  - vm_compute. discriminate.
  - rewrite PatternFacts.phone_shape_length. vm_compute. intros [E | E]; discriminate.
Defined.

Lemma birth_date_flagged_iff_witness :
  FormScreen.FormErrors.birthDate
    (FormScreen.errors
       (snd (FormScreen.validateForm (FormScreen.MkDate 2025 12 31) teen_form)))
  = Some "Idade mínima é 13 anos" /\
  FormScreen.FormErrors.birthDate
    (FormScreen.errors
       (snd (FormScreen.validateForm (FormScreen.MkDate 2026 1 1) teen_form)))
  = None.
Proof.
  split.
  - destruct (birth_date_flagged_iff (FormScreen.MkDate 2025 12 31) teen_form)
      as (_ & _ & _ & H & _).
    apply H. reflexivity.
  - destruct (birth_date_flagged_iff (FormScreen.MkDate 2026 1 1) teen_form)
      as (_ & _ & _ & _ & H & _).
    apply H. reflexivity.
Defined.

(* ================================================================== *)
(** * The properties of the specification: editing and submitting *)
(* ================================================================== *)

Lemma initial_messages_not_empty (initialData : option FormScreen.Partial.t)
      (now : FormScreen.Date) :
  messages_not_empty (FormScreen.errors (FormScreen.initialState initialData now)).
Proof. intros field. now destruct field. Qed.

Lemma validateForm_messages_not_empty (today : FormScreen.Date) (st : FormScreen.State) :
  messages_not_empty (FormScreen.errors (snd (FormScreen.validateForm today st))).
Proof.
  intros field H. now apply FormFacts.error_not_empty in H.
Qed.

Lemma updateFormData_messages_not_empty
      (field : FormScreen.Field) (value : FormScreen.field_type field)
      (st : FormScreen.State) :
  messages_not_empty (FormScreen.errors st) ->
  messages_not_empty (FormScreen.errors (FormScreen.updateFormData field value st)).
Proof.
  intros H other. unfold FormScreen.updateFormData.
  destruct (FormScreen.truthy_message (FormScreen.error_of (FormScreen.errors st) field));
    [|apply (H other)].
  specialize (H other). destruct field, other; simpl in *; congruence.
Qed.

Lemma onDateChange_update (d : FormScreen.Date) (st : FormScreen.State) :
  FormScreen.onDateChange (Some d) st
  = FormScreen.setShowDatePicker
      false (FormScreen.updateFormData FormScreen.K_birthDate d st).
Proof.
  unfold FormScreen.onDateChange, FormScreen.updateFormData.
  now destruct (FormScreen.truthy_message
                  (FormScreen.error_of (FormScreen.errors st) FormScreen.K_birthDate)).
Qed.

Lemma handleSubmit_errors onSubmit today
      (w : Eff.world FormScreen.State FormScreen.FormData) :
  FormScreen.errors (Eff.store (snd (FormScreen.handleSubmit onSubmit today w)))
  = FormScreen.errors (snd (FormScreen.validateForm today (Eff.store w))).
Proof.
  unfold FormScreen.handleSubmit, Eff.bind, Eff.gets.
  destruct (FormScreen.validateForm today (Eff.store w)) as [valid st'].
  destruct valid; simpl; [|reflexivity].
  destruct onSubmit as [f|]; simpl; [|reflexivity].
  unfold Eff.try_finally, Eff.try_catch, Eff.invoke, Eff.bind. simpl.
  now destruct (f (FormScreen.formData (Eff.store w))).
Qed.

(** Every state the form reaches holds readable messages only. *)
Lemma reachable_messages_not_empty initialData now (st : FormScreen.State) :
  reachable initialData now st -> messages_not_empty (FormScreen.errors st).
Proof.
  induction 1 as [|field value st _ IH|b st _ IH|selectedDate st _ IH
                  |onSubmit today t st _ IH].
  - apply initial_messages_not_empty.
  - now apply updateFormData_messages_not_empty.
  - exact IH.
  - destruct selectedDate as [d|]; [|exact IH].
    rewrite onDateChange_update.
    now apply (@updateFormData_messages_not_empty FormScreen.K_birthDate d st).
  - rewrite handleSubmit_errors. apply validateForm_messages_not_empty.
Qed.

(** C4: [updateFormData] replaces the value of the field and of no other
    field; the entry of the field in the errors, if there is one, is
    removed, and every other entry stays as it was: nothing is validated
    again.  The other cells of the state are not touched. *)
Theorem updateFormData_frame
        (field : FormScreen.Field) (value : FormScreen.field_type field)
        (st : FormScreen.State)
        (Hmsg : messages_not_empty (FormScreen.errors st)) :
  let st' := FormScreen.updateFormData field value st in
  FormScreen.get_field field (FormScreen.formData st') = value /\
  (forall other, other <> field ->
      FormScreen.get_field other (FormScreen.formData st')
      = FormScreen.get_field other (FormScreen.formData st)) /\
  FormScreen.error_of (FormScreen.errors st') field = None /\
  (forall other, other <> field ->
      FormScreen.error_of (FormScreen.errors st') other
      = FormScreen.error_of (FormScreen.errors st) other) /\
  FormScreen.showDatePicker st' = FormScreen.showDatePicker st /\
  FormScreen.isLoading st' = FormScreen.isLoading st.
Proof.
  intros st'.
  assert (Hdata : FormScreen.formData st'
                  = FormScreen.set_field field value (FormScreen.formData st)).
  { unfold st', FormScreen.updateFormData.
    now destruct (FormScreen.truthy_message
                    (FormScreen.error_of (FormScreen.errors st) field)). }
  split; [rewrite Hdata; now destruct field|].
  split; [intros other Ho; rewrite Hdata; destruct field, other; try reflexivity;
          now elim Ho|].
  pose proof (Hmsg field) as Hf.
  unfold st', FormScreen.updateFormData.
  destruct (FormScreen.truthy_message
              (FormScreen.error_of (FormScreen.errors st) field)) eqn:E.
  - split; [now destruct field|].
    split; [|split; reflexivity].
    intros other Ho. destruct field, other; try reflexivity; now elim Ho.
  - split; [|split; [reflexivity | split; reflexivity]].
    simpl. destruct (FormScreen.error_of (FormScreen.errors st) field) as [[|x m]|];
      [now elim Hf | discriminate | reflexivity].
Qed.

Lemma updateFormData_frame_witness :
  let st := snd (FormScreen.validateForm a_day (FormScreen.initialState None a_day)) in
  let st' := FormScreen.updateFormData FormScreen.K_firstName (lit "Ana") st in
  FormScreen.error_of (FormScreen.errors st) FormScreen.K_firstName
  = Some "Nome é obrigatório" /\
  FormScreen.get_field FormScreen.K_firstName (FormScreen.formData st') = lit "Ana" /\
  FormScreen.error_of (FormScreen.errors st') FormScreen.K_firstName = None /\
  FormScreen.error_of (FormScreen.errors st') FormScreen.K_lastName
  = Some "Sobrenome é obrigatório".
Proof.
  intros st st'.
  assert (Hmsg : messages_not_empty (FormScreen.errors st)).
  { intros field. destruct field; vm_compute; discriminate. }
  destruct (@updateFormData_frame FormScreen.K_firstName (lit "Ana") st Hmsg)
    as (H1 & _ & H3 & H4 & _).
  split; [reflexivity|]. split; [exact H1|]. split; [exact H3|].
  fold st' in H4. rewrite (H4 FormScreen.K_lastName); [reflexivity | discriminate].
Defined.

Lemma invocations_app (P : Type) (t u : list (Eff.event P)) :
  Eff.invocations (t ++ u) = Eff.invocations t + Eff.invocations u.
Proof.
  induction t as [|e t IH]; simpl; [reflexivity|].
  destruct e; simpl; now rewrite IH.
Qed.

(** C5: when [validateForm] returns [false], the handler sets the errors
    of the pass and stops: the injected callback is not called, no timer
    is started, the loading flag and the form values are as before.  The
    sign-up form also shows an alert, the login form shows nothing else. *)
Theorem invalid_submit_attempts_nothing :
  (forall onSubmit today (w : Eff.world FormScreen.State FormScreen.FormData),
      fst (FormScreen.validateForm today (Eff.store w)) = false ->
      let r := FormScreen.handleSubmit onSubmit today w in
      fst r = Eff.Ok tt /\
      Eff.trace (snd r)
      = (Eff.trace w
           ++ [Eff.Alert "Erro" "Por favor, corrija os erros no formulário." []])%list /\
      Eff.invocations (Eff.trace (snd r)) = Eff.invocations (Eff.trace w) /\
      FormScreen.errors (Eff.store (snd r))
      = FormScreen.errors (snd (FormScreen.validateForm today (Eff.store w))) /\
      FormScreen.isLoading (Eff.store (snd r)) = FormScreen.isLoading (Eff.store w) /\
      FormScreen.formData (Eff.store (snd r)) = FormScreen.formData (Eff.store w)) /\
  (forall onLogin (w : Eff.world LoginScreen.State (jsstring * jsstring)),
      fst (LoginScreen.validateForm (Eff.store w)) = false ->
      let r := LoginScreen.handleLogin onLogin w in
      fst r = Eff.Ok tt /\
      Eff.trace (snd r) = Eff.trace w /\
      LoginScreen.errors (Eff.store (snd r))
      = LoginScreen.errors (snd (LoginScreen.validateForm (Eff.store w))) /\
      LoginScreen.isLoading (Eff.store (snd r)) = LoginScreen.isLoading (Eff.store w) /\
      LoginScreen.email (Eff.store (snd r)) = LoginScreen.email (Eff.store w) /\
      LoginScreen.password (Eff.store (snd r)) = LoginScreen.password (Eff.store w)).
Proof.
  split.
  - intros onSubmit today w H r.
    destruct (FormFacts.validateForm_frame today (Eff.store w)) as (Hd & _ & Hl).
    unfold r, FormScreen.handleSubmit, Eff.bind, Eff.gets.
    destruct (FormScreen.validateForm today (Eff.store w)) as [valid st'].
    simpl in H, Hd, Hl. subst valid. simpl.
    rewrite invocations_app. simpl. repeat split; auto.
  - intros onLogin w H r.
    destruct (LoginFacts.login_frame (Eff.store w)) as (He & Hp & _ & Hl).
    unfold r, LoginScreen.handleLogin, Eff.bind, Eff.gets.
    destruct (LoginScreen.validateForm (Eff.store w)) as [valid st'].
    simpl in H, He, Hp, Hl. subst valid. simpl. repeat split; auto.
Qed.

Lemma invalid_submit_attempts_nothing_witness :
  let w := Eff.World (FormScreen.initialState None a_day)
                     (@nil (Eff.event FormScreen.FormData)) in
  let r := FormScreen.handleSubmit (Some (fun _ => Eff.Returns)) a_day w in
  Eff.invocations (Eff.trace (snd r)) = 0 /\
  FormScreen.isLoading (Eff.store (snd r)) = false /\
  FormScreen.formData (Eff.store (snd r)) = FormScreen.formData (Eff.store w).
Proof.
  intros w r.
  destruct invalid_submit_attempts_nothing as (H & _).
  destruct (H (Some (fun _ => Eff.Returns)) a_day w) as (_ & _ & H3 & _ & H5 & H6).
  - reflexivity.
  - fold r in H3, H5, H6. now rewrite H3, H5, H6.
Defined.

(** C6, as amended: a submit whose validation passes raises the loading
    flag, waits once for the simulated sending and then calls the injected
    callback exactly once when there is one; when the component was given
    no callback it calls none and shows the success alert.  Whether the
    callback returns or throws, the handler ends without an error of its
    own, the loading flag is down again and the form values are as they
    were, so the user may submit again. *)
Theorem valid_submit_one_attempt :
  (forall onSubmit today (w : Eff.world FormScreen.State FormScreen.FormData),
      fst (FormScreen.validateForm today (Eff.store w)) = true ->
      let r := FormScreen.handleSubmit onSubmit today w in
      let d := FormScreen.formData (Eff.store w) in
      fst r = Eff.Ok tt /\
      Eff.trace (snd r)
      = (Eff.trace w ++
         Eff.SetTimeout 2000 ::
         match onSubmit with
         | Some f =>
           Eff.Invoke d ::
           match f d with
           | Eff.Returns => []
           | Eff.Throws =>
             [Eff.Alert "Erro" "Falha ao enviar formulário. Tente novamente." []]
           end
         | None =>
           [Eff.Alert "Sucesso" "Formulário enviado com sucesso!"
                      [Eff.Button "OK" (Some Eff.GoBack)]]
         end)%list /\
      Eff.invocations (Eff.trace (snd r))
      = Eff.invocations (Eff.trace w)
        + match onSubmit with Some _ => 1 | None => 0 end /\
      FormScreen.isLoading (Eff.store (snd r)) = false /\
      FormScreen.formData (Eff.store (snd r)) = d) /\
  (forall onLogin (w : Eff.world LoginScreen.State (jsstring * jsstring)),
      fst (LoginScreen.validateForm (Eff.store w)) = true ->
      let r := LoginScreen.handleLogin onLogin w in
      let d := (LoginScreen.email (Eff.store w), LoginScreen.password (Eff.store w)) in
      fst r = Eff.Ok tt /\
      Eff.trace (snd r)
      = (Eff.trace w ++
         Eff.SetTimeout 2000 ::
         match onLogin with
         | Some f =>
           Eff.Invoke d ::
           match f (fst d) (snd d) with
           | Eff.Returns => []
           | Eff.Throws => [Eff.Alert "Erro" "Falha no login. Tente novamente." []]
           end
         | None => [Eff.Alert "Sucesso" "Login realizado com sucesso!" []]
         end)%list /\
      Eff.invocations (Eff.trace (snd r))
      = Eff.invocations (Eff.trace w)
        + match onLogin with Some _ => 1 | None => 0 end /\
      LoginScreen.isLoading (Eff.store (snd r)) = false /\
      LoginScreen.email (Eff.store (snd r)) = fst d /\
      LoginScreen.password (Eff.store (snd r)) = snd d).
Proof.
  split.
  - intros onSubmit today w H r d.
    destruct (FormFacts.validateForm_frame today (Eff.store w)) as (Hd & _ & _).
    unfold r, FormScreen.handleSubmit, Eff.bind, Eff.gets.
    destruct (FormScreen.validateForm today (Eff.store w)) as [valid st'].
    simpl in H, Hd. subst valid. fold d.
    destruct onSubmit as [f|]; simpl.
    + unfold Eff.try_finally, Eff.try_catch, Eff.invoke, Eff.bind. simpl.
      destruct (f d); simpl; rewrite <- !app_assoc; simpl;
        rewrite invocations_app; simpl; repeat split; auto; lia.
    + rewrite <- !app_assoc. simpl. rewrite invocations_app. simpl.
      repeat split; auto; lia.
  - intros onLogin w H r d.
    destruct (LoginFacts.login_frame (Eff.store w)) as (He & Hp & _ & _).
    unfold r, LoginScreen.handleLogin, Eff.bind, Eff.gets.
    destruct (LoginScreen.validateForm (Eff.store w)) as [valid st'].
    simpl in H, He, Hp. subst valid. fold d.
    destruct onLogin as [f|]; simpl.
    + unfold Eff.try_finally, Eff.try_catch, Eff.invoke, Eff.bind. simpl.
      destruct (f (LoginScreen.email (Eff.store w))
                  (LoginScreen.password (Eff.store w))); simpl;
        rewrite <- !app_assoc; simpl;
        rewrite invocations_app; simpl; repeat split; auto; lia.
    + rewrite <- !app_assoc. simpl. rewrite invocations_app. simpl.
      repeat split; auto; lia.
Qed.

Lemma valid_submit_one_attempt_witness :
  let w := Eff.World ana_form (@nil (Eff.event FormScreen.FormData)) in
  let r := FormScreen.handleSubmit (Some (fun _ => Eff.Throws)) a_day w in
  fst r = Eff.Ok tt /\
  Eff.invocations (Eff.trace (snd r)) = 1 /\
  FormScreen.isLoading (Eff.store (snd r)) = false.
Proof.
  intros w r.
  destruct valid_submit_one_attempt as (H & _).
  destruct (H (Some (fun _ => Eff.Throws)) a_day w) as (H1 & _ & H3 & H4 & _).
  - reflexivity.
  - fold r in H1, H3, H4. now rewrite H1, H3, H4.
Defined.

(** C6 as stated fails: the valid form, submitted in a component that was
    given no callback, calls no collaborator. *)
Lemma no_callback_no_invocation :
  fst (FormScreen.validateForm a_day ana_form) = true /\
  Eff.invocations
    (Eff.trace
       (snd (FormScreen.handleSubmit
               None a_day
               (Eff.World ana_form (@nil (Eff.event FormScreen.FormData))))))
  = 0.
Proof. split; reflexivity. Qed.

(* ================================================================== *)
(** * The scenarios of the specification *)
(* ================================================================== *)

(** An address without [@] is flagged as invalid, and nothing else is. *)
Example scenario_invalid_email :
  FormScreen.errors
    (snd (FormScreen.validateForm
            a_day
            (FormScreen.updateFormData FormScreen.K_email (lit "not-an-email") ana_form)))
  = FormScreen.FormErrors.set_email (Some "Email inválido") FormScreen.FormErrors.empty.
Proof. reflexivity. Qed.

(** A password of three characters is flagged for its length, one of six
    is not. *)
Example scenario_short_password :
  LoginScreen.shown
    (LoginScreen.errors
       (snd (LoginScreen.validateForm (LoginScreen.setPassword (lit "abc") ana_login))))
    LoginScreen.K_password
  = Some "Senha deve ter pelo menos 6 caracteres" /\
  LoginScreen.shown
    (LoginScreen.errors
       (snd (LoginScreen.validateForm (LoginScreen.setPassword (lit "abcdef") ana_login))))
    LoginScreen.K_password
  = None.
Proof. split; reflexivity. Qed.

(** A bio of 501 code units is flagged, one of 500 is not. *)
Example scenario_long_bio :
  FormScreen.FormErrors.bio
    (FormScreen.errors
       (snd (FormScreen.validateForm
               a_day
               (FormScreen.updateFormData FormScreen.K_bio (repeat 97%N 501) ana_form))))
  = Some "Bio deve ter no máximo 500 caracteres" /\
  FormScreen.FormErrors.bio
    (FormScreen.errors
       (snd (FormScreen.validateForm
               a_day
               (FormScreen.updateFormData FormScreen.K_bio (repeat 97%N 500) ana_form))))
  = None.
Proof. split; vm_compute; reflexivity. Qed.

(** What the phone field holds as the user types eleven digits. *)
Example scenario_format_phone :
  FormScreen.formatPhone (lit "1199999") = lit "1199999" /\
  FormScreen.formatPhone (lit "1199999999") = lit "(11) 9999-9999" /\
  FormScreen.formatPhone (lit "(11) 9999-99999") = lit "(11) 99999-9999".
Proof. repeat split; reflexivity. Qed.

(* ================================================================== *)
(** * Further properties: the fields and their patterns *)
(* ================================================================== *)

(** X1: the entry of a field after a pass depends on the value of that
    field alone; the current year matters for the birth date only.  No
    rule looks at another field, and a failing field does not keep the
    later ones from being checked. *)
Theorem error_depends_on_own_field
        (today1 today2 : FormScreen.Date) (st1 st2 : FormScreen.State)
        (field : FormScreen.Field)
        (Hvalue : FormScreen.get_field field (FormScreen.formData st1)
                  = FormScreen.get_field field (FormScreen.formData st2))
        (Hyear : field = FormScreen.K_birthDate ->
                 FormScreen.getFullYear today1 = FormScreen.getFullYear today2) :
  FormScreen.error_of (FormScreen.errors (snd (FormScreen.validateForm today1 st1))) field
  = FormScreen.error_of (FormScreen.errors (snd (FormScreen.validateForm today2 st2))) field.
Proof.
  rewrite !FormFacts.validateForm_errors. cbv zeta.
  destruct field; simpl in *; try rewrite Hvalue; try reflexivity.
  now rewrite (Hyear eq_refl).
Qed.

Lemma error_depends_on_own_field_witness :
  FormScreen.error_of
    (FormScreen.errors (snd (FormScreen.validateForm a_day ana_form)))
    FormScreen.K_phone
  = FormScreen.error_of
      (FormScreen.errors
         (snd (FormScreen.validateForm
                 (FormScreen.MkDate 1999 1 1)
                 (FormScreen.updateFormData FormScreen.K_email (lit "nobody") ana_form))))
      FormScreen.K_phone.
Proof.
  apply error_depends_on_own_field; [reflexivity | discriminate].
Defined.

Lemma part_char_no_at (l : jsstring) :
  Forall part_char l -> count_occ N.eq_dec l 64%N = 0.
Proof.
  intros H. apply count_occ_not_In. intros Hin.
  rewrite Forall_forall in H. destruct (H _ Hin) as [_ Hc]. now elim Hc.
Qed.

(** X2: [validateEmail] accepts exactly the strings without white space
    that hold one [@], not in the first place, and a dot that stands two
    places or more after the [@] and is not the last character. *)
Theorem email_accepted_iff (s : jsstring) :
  FormScreen.validateEmail s = true <->
  (forall c, In c s -> is_ws c = false) /\
  count_occ N.eq_dec s 64%N = 1 /\
  exists i j,
    nth_error s i = Some 64%N /\ nth_error s j = Some 46%N /\
    0 < i /\ i + 1 < j /\ j + 1 < List.length s.
Proof.
  rewrite PatternFacts.validateEmail_shape. split.
  - intros (l & d & t & -> & Hl & Hd & Ht & Fl & Fd & Ft).
    apply PatternFacts.length_pos_not_nil in Hl, Hd, Ht.
    split; [|split].
    + intros c Hc. rewrite Forall_forall in Fl, Fd, Ft.
      repeat (apply in_app_or in Hc; destruct Hc as [Hc | Hc]);
        try (now apply Fl); try (now apply Fd); try (now apply Ft);
        simpl in Hc; destruct Hc as [<- | []]; reflexivity.
    + rewrite !count_occ_app.
      rewrite (part_char_no_at Fl), (part_char_no_at Fd), (part_char_no_at Ft).
      reflexivity.
    + exists (List.length l), (List.length l + 1 + List.length d).
      split; [|split; [|split; [|split]]]; try lia.
      * rewrite nth_error_app2 by lia. now rewrite Nat.sub_diag.
      * rewrite nth_error_app2 by lia.
        replace (List.length l + 1 + List.length d - List.length l)
          with (S (List.length d)) by lia.
        simpl. rewrite nth_error_app2 by lia. now rewrite Nat.sub_diag.
      * rewrite !length_app. simpl. lia.
  - intros (Hws & Hcount & i & j & Hi & Hj & Hi0 & Hij & Hjl).
    destruct (nth_error_split _ _ Hi) as (l & r & -> & Ll).
    rewrite nth_error_app2 in Hj by lia.
    replace (j - List.length l) with (S (j - List.length l - 1)) in Hj by lia.
    simpl in Hj.
    destruct (nth_error_split _ _ Hj) as (d & t & -> & Ld).
    rewrite !length_app in Hjl. simpl in Hjl. rewrite length_app in Hjl.
    simpl in Hjl.
    rewrite count_occ_app in Hcount. simpl in Hcount.
    rewrite count_occ_app in Hcount. simpl in Hcount.
    assert (Hpart : forall p, In p [l; d; t] -> Forall part_char p).
    { intros p Hp. apply Forall_forall. intros c Hc. split.
      - apply Hws. simpl in Hp.
        destruct Hp as [<- | [<- | [<- | []]]].
        + apply in_or_app. now left.
        + apply in_or_app. right. right. apply in_or_app. now left.
        + apply in_or_app. right. right. apply in_or_app. right. now right.
      - intros ->.
        assert (Hz : count_occ N.eq_dec p 64%N = 0).
        { simpl in Hp. destruct Hp as [<- | [<- | [<- | []]]]; lia. }
        apply count_occ_not_In in Hz. now elim Hz. }
    exists l, d, t. split; [reflexivity|].
    split; [apply PatternFacts.length_pos_not_nil; lia|].
    split; [apply PatternFacts.length_pos_not_nil; lia|].
    split; [apply PatternFacts.length_pos_not_nil; lia|].
    split; [|split]; apply Hpart; simpl; auto.
Qed.

(** X3: [validatePhone] accepts a string exactly when [formatPhone]
    rewrites it: to an opening parenthesis, two digits, a closing
    parenthesis and a space, four or five digits, a hyphen and four
    digits, 14 or 15 code units in all. *)
Theorem phone_valid_iff_reformatted (s : jsstring) :
  FormScreen.validatePhone s = true <->
  exists a b c,
    all_digits a /\ all_digits b /\ all_digits c /\
    List.length a = 2 /\ (List.length b = 4 \/ List.length b = 5) /\
    List.length c = 4 /\
    FormScreen.formatPhone s = formatted a b c /\
    List.length (FormScreen.formatPhone s) = 10 + List.length b.
Proof.
  rewrite PatternFacts.validatePhone_shape. split.
  - intros Hs.
    destruct (PatternFacts.formatPhone_cases s)
      as [(a & b & c & Hd & La & Lb & Lc & Hf) | [Hn _]]; [|now elim Hn].
    pose proof (PatternFacts.digits_all_digits s) as D. rewrite Hd in D.
    apply PatternFacts.all_digits_app in D. destruct D as [Da D].
    apply PatternFacts.all_digits_app in D. destruct D as [Db Dc].
    exists a, b, c. repeat split; try assumption.
    rewrite Hf. unfold formatted. rewrite !length_app. simpl. lia.
  - intros (a & b & c & Da & Db & Dc & La & Lb & Lc & Hf & _).
    rewrite <- PatternFacts.formatPhone_digits, Hf.
    rewrite PatternFacts.digits_formatted.
    + now exists a, b, c.
    + apply PatternFacts.all_digits_app. split; [assumption|].
      now apply PatternFacts.all_digits_app.
Qed.

(** X4: after the user types [text] in the phone field, the phone stored
    has the digits of [text], and the next pass leaves the phone without
    an entry exactly when [text] holds 10 or 11 digits, whatever else it
    holds. *)
Theorem typed_phone_passes_iff
        (text : jsstring) (today : FormScreen.Date) (st : FormScreen.State) :
  let st' := FormHandlers.onChangePhone text st in
  digits (FormScreen.phone (FormScreen.formData st')) = digits text /\
  (FormScreen.FormErrors.phone
     (FormScreen.errors (snd (FormScreen.validateForm today st'))) = None <->
   List.length (digits text) = 10 \/ List.length (digits text) = 11).
Proof.
  intros st'.
  assert (Hp : FormScreen.phone (FormScreen.formData st') = FormScreen.formatPhone text).
  { unfold st', FormHandlers.onChangePhone, FormScreen.updateFormData.
    now destruct (FormScreen.truthy_message
                    (FormScreen.error_of (FormScreen.errors st) FormScreen.K_phone)). }
  clearbody st'.
  rewrite Hp. split; [apply PatternFacts.formatPhone_digits|].
  pose proof (FormFacts.no_error_iff_rule today st' FormScreen.K_phone) as H.
  cbn [FormScreen.error_of form_rule] in H. rewrite H, Hp, PatternFacts.formatPhone_digits.
  rewrite <- PatternFacts.phone_shape_length. split; [tauto|].
  intros Hs. split; [|exact Hs].
  apply PatternFacts.phone_shape_required.
  now rewrite PatternFacts.formatPhone_digits.
Qed.

(* ================================================================== *)
(** * Further properties: editing the form *)
(* ================================================================== *)

Lemma state_ext (st st' : FormScreen.State) :
  FormScreen.formData st = FormScreen.formData st' ->
  FormScreen.errors st = FormScreen.errors st' ->
  FormScreen.showDatePicker st = FormScreen.showDatePicker st' ->
  FormScreen.isLoading st = FormScreen.isLoading st' ->
  st = st'.
Proof. destruct st, st'; simpl; intros; congruence. Qed.

Lemma updateFormData_cells (field : FormScreen.Field)
      (value : FormScreen.field_type field) (st : FormScreen.State) :
  FormScreen.formData (FormScreen.updateFormData field value st)
  = FormScreen.set_field field value (FormScreen.formData st) /\
  FormScreen.errors (FormScreen.updateFormData field value st)
  = (if FormScreen.truthy_message (FormScreen.error_of (FormScreen.errors st) field)
     then FormScreen.clear_error field (FormScreen.errors st)
     else FormScreen.errors st) /\
  FormScreen.showDatePicker (FormScreen.updateFormData field value st)
  = FormScreen.showDatePicker st /\
  FormScreen.isLoading (FormScreen.updateFormData field value st)
  = FormScreen.isLoading st.
Proof.
  unfold FormScreen.updateFormData.
  now destruct (FormScreen.truthy_message
                  (FormScreen.error_of (FormScreen.errors st) field)).
Qed.

Lemma clear_error_frame (f g : FormScreen.Field) (e : FormScreen.FormErrors.t) :
  f <> g ->
  FormScreen.error_of (FormScreen.clear_error g e) f = FormScreen.error_of e f.
Proof. intros H. destruct f, g; try reflexivity; now elim H. Qed.

Lemma clear_error_same (f : FormScreen.Field) (e : FormScreen.FormErrors.t) :
  FormScreen.error_of (FormScreen.clear_error f e) f = None.
Proof. now destruct f. Qed.

(** X5: the handler of the date picker always closes the picker and
    leaves the loading flag alone.  When the picker was dismissed, the
    form data and the errors stay as they were.  When a date was chosen,
    it becomes the birth date, no other field and no other entry of the
    errors changes, the entry of the birth date is removed, and the next
    pass accepts the birth date exactly when the year of the date lies 13
    to 120 years back. *)
Theorem date_picker_choice
        (selectedDate : option FormScreen.Date) (st : FormScreen.State)
        (Hmsg : messages_not_empty (FormScreen.errors st)) :
  let st' := FormScreen.onDateChange selectedDate st in
  FormScreen.showDatePicker st' = false /\
  FormScreen.isLoading st' = FormScreen.isLoading st /\
  match selectedDate with
  | None =>
    FormScreen.formData st' = FormScreen.formData st /\
    FormScreen.errors st' = FormScreen.errors st
  | Some d =>
    FormScreen.birthDate (FormScreen.formData st') = d /\
    (forall other, other <> FormScreen.K_birthDate ->
        FormScreen.get_field other (FormScreen.formData st')
        = FormScreen.get_field other (FormScreen.formData st)) /\
    FormScreen.FormErrors.birthDate (FormScreen.errors st') = None /\
    (forall other, other <> FormScreen.K_birthDate ->
        FormScreen.error_of (FormScreen.errors st') other
        = FormScreen.error_of (FormScreen.errors st) other) /\
    (forall today,
        FormScreen.FormErrors.birthDate
          (FormScreen.errors (snd (FormScreen.validateForm today st'))) = None <->
        (13 <= age today d <= 120)%Z)
  end.
Proof.
  intros st'. destruct selectedDate as [d|]; [|now repeat split].
  pose proof (Hmsg FormScreen.K_birthDate) as Hb. simpl in Hb.
  assert (Hd : FormScreen.birthDate (FormScreen.formData st') = d).
  { unfold st', FormScreen.onDateChange.
    now destruct (FormScreen.truthy_message
                    (FormScreen.error_of (FormScreen.errors st) FormScreen.K_birthDate)). }
  split; [|split; [|split; [|split; [|split; [|split]]]]].
  - unfold st', FormScreen.onDateChange.
    now destruct (FormScreen.truthy_message
                    (FormScreen.error_of (FormScreen.errors st) FormScreen.K_birthDate)).
  - unfold st', FormScreen.onDateChange.
    now destruct (FormScreen.truthy_message
                    (FormScreen.error_of (FormScreen.errors st) FormScreen.K_birthDate)).
  - exact Hd.
  - intros other Ho. unfold st', FormScreen.onDateChange.
    destruct (FormScreen.truthy_message
                (FormScreen.error_of (FormScreen.errors st) FormScreen.K_birthDate));
      destruct other; try reflexivity; now elim Ho.
  - unfold st', FormScreen.onDateChange. cbn [FormScreen.error_of].
    destruct (FormScreen.FormErrors.birthDate (FormScreen.errors st))
      as [[|x m]|] eqn:E; [now elim Hb | reflexivity | exact E].
  - intros other Ho. unfold st', FormScreen.onDateChange.
    destruct (FormScreen.truthy_message
                (FormScreen.error_of (FormScreen.errors st) FormScreen.K_birthDate));
      destruct other; try reflexivity; now elim Ho.
  - intros today. clearbody st'.
    pose proof (FormFacts.no_error_iff_rule today st' FormScreen.K_birthDate) as H.
    cbn [FormScreen.error_of form_rule] in H. now rewrite Hd in H.
Qed.

Lemma date_picker_choice_witness :
  let st := snd (FormScreen.validateForm a_day (FormScreen.initialState None a_day)) in
  let st' := FormScreen.onDateChange (Some (FormScreen.MkDate 2000 2 29)) st in
  FormScreen.FormErrors.birthDate (FormScreen.errors st) = Some "Idade mínima é 13 anos" /\
  FormScreen.FormErrors.birthDate (FormScreen.errors st') = None /\
  FormScreen.FormErrors.birthDate
    (FormScreen.errors (snd (FormScreen.validateForm a_day st'))) = None.
Proof.
  intros st st'.
  assert (Hmsg : messages_not_empty (FormScreen.errors st)).
  { intros field. destruct field; vm_compute; discriminate. }
  destruct (@date_picker_choice (Some (FormScreen.MkDate 2000 2 29)) st Hmsg)
    as (_ & _ & _ & _ & H3 & _ & H5).
  split; [reflexivity|]. split; [exact H3|].
  apply H5. vm_compute. split; discriminate.
Defined.

(** X6: edits of two different fields can be made in either order: the
    state reached is the same. *)
Theorem updates_commute
        (f g : FormScreen.Field)
        (v : FormScreen.field_type f) (u : FormScreen.field_type g)
        (st : FormScreen.State) (Hfg : f <> g) :
  FormScreen.updateFormData f v (FormScreen.updateFormData g u st)
  = FormScreen.updateFormData g u (FormScreen.updateFormData f v st).
Proof.
  destruct (updateFormData_cells f v (FormScreen.updateFormData g u st))
    as (D1 & E1 & P1 & L1).
  destruct (updateFormData_cells g u (FormScreen.updateFormData f v st))
    as (D2 & E2 & P2 & L2).
  destruct (updateFormData_cells g u st) as (D3 & E3 & P3 & L3).
  destruct (updateFormData_cells f v st) as (D4 & E4 & P4 & L4).
  apply state_ext.
  - rewrite D1, D2, D3, D4. destruct f, g; try reflexivity; now elim Hfg.
  - rewrite E1, E2, E3, E4.
    assert (Hcomm : forall e,
               FormScreen.clear_error f (FormScreen.clear_error g e)
               = FormScreen.clear_error g (FormScreen.clear_error f e)).
    { intros e. now destruct f, g. }
    destruct (FormScreen.truthy_message
                (FormScreen.error_of (FormScreen.errors st) g)) eqn:Bg;
      destruct (FormScreen.truthy_message
                  (FormScreen.error_of (FormScreen.errors st) f)) eqn:Bf;
      rewrite ?clear_error_frame by congruence; rewrite ?Bf, ?Bg; auto.
  - congruence.
  - congruence.
Qed.

Lemma updates_commute_witness :
  FormScreen.updateFormData
    FormScreen.K_email (lit "ana@example.org")
    (FormScreen.updateFormData FormScreen.K_newsletter false ana_form)
  = FormScreen.updateFormData
      FormScreen.K_newsletter false
      (FormScreen.updateFormData FormScreen.K_email (lit "ana@example.org") ana_form).
Proof.
  apply (@updates_commute FormScreen.K_email FormScreen.K_newsletter). discriminate.
Defined.

(** X7: of two edits of one field the second wins: the state is the one
    the second edit alone leads to. *)
Theorem last_update_wins
        (f : FormScreen.Field) (u v : FormScreen.field_type f)
        (st : FormScreen.State) :
  FormScreen.updateFormData f v (FormScreen.updateFormData f u st)
  = FormScreen.updateFormData f v st.
Proof.
  apply state_ext.
  - destruct (updateFormData_cells f v (FormScreen.updateFormData f u st)) as (-> & _).
    destruct (updateFormData_cells f u st) as (-> & _).
    destruct (updateFormData_cells f v st) as (-> & _).
    now destruct f.
  - destruct (updateFormData_cells f v (FormScreen.updateFormData f u st)) as (_ & -> & _).
    destruct (updateFormData_cells f u st) as (_ & -> & _).
    destruct (updateFormData_cells f v st) as (_ & -> & _).
    destruct (FormScreen.truthy_message
                (FormScreen.error_of (FormScreen.errors st) f)) eqn:Bf;
      [now rewrite clear_error_same | now rewrite Bf].
  - destruct (updateFormData_cells f v (FormScreen.updateFormData f u st)) as (_ & _ & -> & _).
    destruct (updateFormData_cells f u st) as (_ & _ & -> & _).
    now destruct (updateFormData_cells f v st) as (_ & _ & -> & _).
  - destruct (updateFormData_cells f v (FormScreen.updateFormData f u st)) as (_ & _ & _ & ->).
    destruct (updateFormData_cells f u st) as (_ & _ & _ & ->).
    now destruct (updateFormData_cells f v st) as (_ & _ & _ & ->).
Qed.

(** X8: a form opened with initial data that give every field holds
    exactly these data, whatever the clock says; and with any initial
    data, or none, it starts without errors, with the picker closed and
    not loading. *)
Theorem initial_data_round_trip
        (d : FormScreen.FormData) (initialData : option FormScreen.Partial.t)
        (now : FormScreen.Date) :
  FormScreen.formData (FormScreen.initialState (Some (FormHandlers.complete d)) now) = d /\
  FormScreen.errors (FormScreen.initialState initialData now)
  = FormScreen.FormErrors.empty /\
  FormScreen.showDatePicker (FormScreen.initialState initialData now) = false /\
  FormScreen.isLoading (FormScreen.initialState initialData now) = false.
Proof.
  split; [|now repeat split].
  destruct d as [fn ln em ph bd ge co bi no ne].
  unfold FormScreen.initialState, FormScreen.or_empty, FormScreen.or_false. simpl.
  f_equal;
    match goal with
    | |- (if truthy ?s then _ else _) = _ => now destruct s
    | |- (if ?b then _ else _) = _ => now destruct b
    end.
Qed.

(* ================================================================== *)
(** * Further properties: submitting *)
(* ================================================================== *)

Import Traces.

(** [handleSubmit], run: it never throws, the state it leaves is the one of
    the validation pass with the loading flag down after a valid pass, and
    the trace grows by the events of the submit. *)
Lemma handleSubmit_run onSubmit today
      (w : Eff.world FormScreen.State FormScreen.FormData) :
  let v := FormScreen.validateForm today (Eff.store w) in
  FormScreen.handleSubmit onSubmit today w
  = (Eff.Ok tt,
     Eff.World (if fst v then FormScreen.setIsLoading false (snd v) else snd v)
               (Eff.trace w
                  ++ submit_events onSubmit (fst v) (FormScreen.formData (Eff.store w)))%list).
Proof.
  unfold FormScreen.handleSubmit, Eff.bind, Eff.gets. cbv zeta.
  destruct (FormScreen.validateForm today (Eff.store w)) as [valid st'].
  destruct valid; simpl; [|reflexivity].
  destruct onSubmit as [f|]; simpl.
  - unfold Eff.try_finally, Eff.try_catch, Eff.invoke, Eff.bind. simpl.
    destruct (f (FormScreen.formData (Eff.store w))); simpl;
      now rewrite <- !app_assoc.
  - unfold Eff.try_finally, Eff.try_catch, FormScreen.alert, Eff.emit. simpl.
    now rewrite <- !app_assoc.
Qed.

Lemma handleLogin_run onLogin (w : Eff.world LoginScreen.State (jsstring * jsstring)) :
  let v := LoginScreen.validateForm (Eff.store w) in
  LoginScreen.handleLogin onLogin w
  = (Eff.Ok tt,
     Eff.World (if fst v then LoginScreen.setIsLoading false (snd v) else snd v)
               (Eff.trace w
                  ++ login_events onLogin (fst v)
                       (LoginScreen.email (Eff.store w),
                        LoginScreen.password (Eff.store w)))%list).
Proof.
  unfold LoginScreen.handleLogin, Eff.bind, Eff.gets. cbv zeta.
  destruct (LoginScreen.validateForm (Eff.store w)) as [valid st'].
  destruct valid; simpl; [|now rewrite app_nil_r].
  destruct onLogin as [f|]; simpl.
  - unfold Eff.try_finally, Eff.try_catch, Eff.invoke, Eff.bind. simpl.
    destruct (f (LoginScreen.email (Eff.store w))
                (LoginScreen.password (Eff.store w))); simpl;
      now rewrite <- !app_assoc.
  - unfold Eff.try_finally, Eff.try_catch, LoginScreen.alert, Eff.emit. simpl.
    now rewrite <- !app_assoc.
Qed.

Lemma payloads_app (P : Type) (t u : list (Eff.event P)) :
  payloads (t ++ u) = (payloads t ++ payloads u)%list.
Proof. apply flat_map_app. Qed.

(** X9: whatever the form holds and whatever the callback does,
    [handleSubmit] ends without throwing, keeps the trace it found and
    hands the callback nothing but the form data of the call, and only
    when no check of [validateForm] fails on them: every field but the
    birth date satisfies its rule, and the age computed from the birth
    date is neither under 13 nor over 120.  (The birth date is a valid
    date here; the age of an Invalid Date is neither under 13 nor over 120
    either.) *)
Theorem submit_hands_over_checked_data
        (onSubmit : option (FormScreen.FormData -> Eff.outcome))
        (today : FormScreen.Date)
        (w : Eff.world FormScreen.State FormScreen.FormData) :
  let r := FormScreen.handleSubmit onSubmit today w in
  fst r = Eff.Ok tt /\
  exists added,
    Eff.trace (snd r) = (Eff.trace w ++ added)%list /\
    forall d, In d (payloads added) ->
              d = FormScreen.formData (Eff.store w) /\
              (forall field, field <> FormScreen.K_birthDate ->
                             form_rule today d field) /\
              ~ (age today (FormScreen.birthDate d) < 13 \/
                 age today (FormScreen.birthDate d) > 120)%Z.
Proof.
  intros r. unfold r. rewrite handleSubmit_run. cbv zeta.
  cbn [fst snd Eff.trace Eff.store].
  split; [reflexivity|].
  exists (submit_events onSubmit (fst (FormScreen.validateForm today (Eff.store w)))
                        (FormScreen.formData (Eff.store w))).
  split; [reflexivity|].
  intros d Hd.
  destruct (fst (FormScreen.validateForm today (Eff.store w))) eqn:Hv;
    [|now simpl in Hd].
  assert (Hd' : d = FormScreen.formData (Eff.store w)).
  { unfold submit_events in Hd. destruct onSubmit as [f|]; [|now simpl in Hd].
    simpl in Hd.
    destruct (f (FormScreen.formData (Eff.store w))); simpl in Hd;
      destruct Hd as [<- | []]; reflexivity. }
  split; [exact Hd'|]. subst d.
  assert (Hall : forall field,
             form_rule today (FormScreen.formData (Eff.store w)) field).
  { intros field. apply FormFacts.no_error_iff_rule.
    apply FormFacts.flag_iff_no_errors in Hv.
    now apply FormFacts.empty_iff_no_entry. }
  split; [intros field _; apply Hall|].
  pose proof (Hall FormScreen.K_birthDate) as Hb. simpl in Hb. lia.
Qed.

(** X10: [handleLogin] likewise ends without throwing and hands [onLogin]
    nothing but the email and the password of the call, and only when both
    satisfy their rules. *)
Theorem login_hands_over_valid_data
        (onLogin : option (jsstring -> jsstring -> Eff.outcome))
        (w : Eff.world LoginScreen.State (jsstring * jsstring)) :
  let r := LoginScreen.handleLogin onLogin w in
  fst r = Eff.Ok tt /\
  exists added,
    Eff.trace (snd r) = (Eff.trace w ++ added)%list /\
    forall d, In d (payloads added) ->
              d = (LoginScreen.email (Eff.store w), LoginScreen.password (Eff.store w)) /\
              forall field, login_rule (Eff.store w) field.
Proof.
  intros r. unfold r. rewrite handleLogin_run. cbv zeta.
  cbn [fst snd Eff.trace Eff.store].
  split; [reflexivity|].
  exists (login_events onLogin (fst (LoginScreen.validateForm (Eff.store w)))
                       (LoginScreen.email (Eff.store w),
                        LoginScreen.password (Eff.store w))).
  split; [reflexivity|].
  intros d Hd.
  destruct (fst (LoginScreen.validateForm (Eff.store w))) eqn:Hv; [|now simpl in Hd].
  split.
  - unfold login_events in Hd. destruct onLogin as [f|]; [|now simpl in Hd].
    simpl in Hd.
    destruct (f (LoginScreen.email (Eff.store w)) (LoginScreen.password (Eff.store w)));
      simpl in Hd; destruct Hd as [<- | []]; reflexivity.
  - intros field. apply LoginFacts.login_no_error_iff_rule.
    now apply LoginFacts.login_flag_iff_no_errors.
Qed.

(** X11: after a submit of a valid form, whether the callback returned or
    threw, a second submit in the same year validates again, passes, and
    calls the callback of that render once more with the same form data:
    nothing of the first attempt stands in the way of a retry. *)
Theorem submit_can_be_retried
        (f g : FormScreen.FormData -> Eff.outcome)
        (today1 today2 : FormScreen.Date)
        (w : Eff.world FormScreen.State FormScreen.FormData)
        (Hvalid : fst (FormScreen.validateForm today1 (Eff.store w)) = true)
        (Hyear : FormScreen.getFullYear today1 = FormScreen.getFullYear today2) :
  let w1 := snd (FormScreen.handleSubmit (Some f) today1 w) in
  let r2 := FormScreen.handleSubmit (Some g) today2 w1 in
  fst r2 = Eff.Ok tt /\
  payloads (Eff.trace (snd r2))
  = (payloads (Eff.trace w)
       ++ [FormScreen.formData (Eff.store w); FormScreen.formData (Eff.store w)])%list /\
  FormScreen.isLoading (Eff.store (snd r2)) = false /\
  FormScreen.formData (Eff.store (snd r2)) = FormScreen.formData (Eff.store w).
Proof.
  intros w1 r2. unfold r2, w1. rewrite !handleSubmit_run. cbv zeta.
  rewrite Hvalid. cbn [fst snd Eff.store Eff.trace].
  destruct (FormFacts.validateForm_frame today1 (Eff.store w)) as (Hd & _).
  set (st1 := FormScreen.setIsLoading
                false (snd (FormScreen.validateForm today1 (Eff.store w)))).
  assert (Hd1 : FormScreen.formData st1 = FormScreen.formData (Eff.store w))
    by exact Hd.
  assert (Hv2 : fst (FormScreen.validateForm today2 st1) = true).
  { rewrite FormFacts.validateForm_flag. cbv zeta.
    rewrite Hd1, <- Hyear. rewrite FormFacts.validateForm_flag in Hvalid.
    exact Hvalid. }
  rewrite Hv2, Hd1.
  destruct (FormFacts.validateForm_frame today2 st1) as (Hd2 & _).
  split; [reflexivity|]. split; [|split; [reflexivity | now rewrite <- Hd1]].
  rewrite !payloads_app. rewrite <- app_assoc. f_equal.
  unfold submit_events.
  destruct (f (FormScreen.formData (Eff.store w))),
           (g (FormScreen.formData (Eff.store w))); reflexivity.
Qed.

Lemma submit_can_be_retried_witness :
  let w := Eff.World ana_form (@nil (Eff.event FormScreen.FormData)) in
  let w1 := snd (FormScreen.handleSubmit (Some (fun _ => Eff.Throws)) a_day w) in
  let r2 := FormScreen.handleSubmit (Some (fun _ => Eff.Returns)) a_day w1 in
  payloads (Eff.trace (snd r2)) = [ana; ana] /\
  FormScreen.isLoading (Eff.store (snd r2)) = false.
Proof.
  intros w w1 r2.
  destruct (@submit_can_be_retried (fun _ => Eff.Throws) (fun _ => Eff.Returns)
                                   a_day a_day w) as (_ & H2 & H3 & _);
    [reflexivity | reflexivity |].
  split; [exact H2 | exact H3].
Defined.

(* ================================================================== *)
(** * Further properties: the dashboard *)
(* ================================================================== *)

Lemma lit_inj (a b : string) : lit a = lit b -> a = b.
Proof.
  unfold lit. revert b. induction a as [|x a IH]; intros [|y b] H;
    try discriminate; [reflexivity|].
  simpl in H. injection H as Hx Hab.
  f_equal; [|now apply IH].
  rewrite <- (ascii_N_embedding x), <- (ascii_N_embedding y). now rewrite Hx.
Qed.

(** The decimal text of an integer tells the integer. *)
Lemma number_to_string_inj (a b : Z) :
  DashboardScreen.number_to_string a = DashboardScreen.number_to_string b -> a = b.
Proof.
  unfold DashboardScreen.number_to_string. intros H. apply lit_inj in H.
  assert (Hn : forall z, Z.to_int z <> Decimal.Pos Decimal.Nil /\
                         Z.to_int z <> Decimal.Neg Decimal.Nil).
  { intros [|p|p]; simpl; split; try discriminate;
      intros [= E]; now apply DecimalPos.Unsigned.to_uint_nonnil in E. }
  apply (f_equal NilZero.int_of_string) in H.
  rewrite !NilZero.isi in H by apply Hn.
  injection H as H. apply (f_equal Z.of_int) in H.
  now rewrite !DecimalZ.of_to in H.
Qed.

(** X12: for valid dates whose difference binary64 holds exactly, the
    date not after now, [formatTimeAgo] shows a whole number of minutes
    under 60, or of hours from 1 to 23, or of days from 1 on, and the time
    shown never exceeds the time that has passed and falls short of it by
    less than one unit of the display. *)
Theorem time_ago_rounds_down
        (now date : DashboardScreen.Date)
        (Hnow : DashboardScreen.valid now) (Hdate : DashboardScreen.valid date)
        (Hexact : DashboardScreen.exact now date)
        (Hpast : (DashboardScreen.getTime date <= DashboardScreen.getTime now)%Z) :
  exists (n minutes : Z) (unit : jsstring),
    DashboardScreen.formatTimeAgo now date
    = (DashboardScreen.number_to_string n ++ unit ++ DashboardScreen.atras)%list /\
    ((unit = lit "m" /\ minutes = 1 /\ 0 <= n < 60) \/
     (unit = lit "h" /\ minutes = 60 /\ 1 <= n < 24) \/
     (unit = lit "d" /\ minutes = 1440 /\ 1 <= n))%Z /\
    (n * minutes * 60000
     <= DashboardScreen.getTime now - DashboardScreen.getTime date
     < (n + 1) * minutes * 60000)%Z.
Proof.
  clear Hnow Hdate Hexact.
  unfold DashboardScreen.formatTimeAgo. cbv zeta.
  change (1000 * 60)%Z with 60000%Z.
  set (diff := (DashboardScreen.getTime now - DashboardScreen.getTime date)%Z) in *.
  assert (Hdiff : (0 <= diff)%Z) by (unfold diff; lia).
  pose proof (Z.div_mod diff 60000 ltac:(lia)) as E1.
  pose proof (Z.mod_pos_bound diff 60000 ltac:(lia)) as B1.
  set (m := (diff / 60000)%Z) in *.
  pose proof (Z.div_mod m 60 ltac:(lia)) as E2.
  pose proof (Z.mod_pos_bound m 60 ltac:(lia)) as B2.
  pose proof (Z.div_mod m 1440 ltac:(lia)) as E3.
  pose proof (Z.mod_pos_bound m 1440 ltac:(lia)) as B3.
  destruct (Z.ltb_spec m 60) as [H60 | H60].
  - exists m, 1%Z, (lit "m"). split; [reflexivity|].
    split; [left|]; repeat split; try reflexivity; lia.
  - destruct (Z.ltb_spec m 1440) as [H1440 | H1440].
    + exists (m / 60)%Z, 60%Z, (lit "h"). split; [reflexivity|].
      split; [right; left|]; repeat split; try reflexivity; lia.
    + exists (m / 1440)%Z, 1440%Z, (lit "d"). split; [reflexivity|].
      split; [right; right|]; repeat split; try reflexivity; lia.
Qed.

Lemma time_ago_rounds_down_witness :
  exists (n minutes : Z) (unit : jsstring),
    DashboardScreen.formatTimeAgo (DashboardScreen.MkDate 1793000000000)
                                  (DashboardScreen.MkDate 1792994600000)
    = (DashboardScreen.number_to_string n ++ unit ++ DashboardScreen.atras)%list /\
    ((unit = lit "m" /\ minutes = 1 /\ 0 <= n < 60) \/
     (unit = lit "h" /\ minutes = 60 /\ 1 <= n < 24) \/
     (unit = lit "d" /\ minutes = 1440 /\ 1 <= n))%Z /\
    (n * minutes * 60000 <= 1793000000000 - 1792994600000
     < (n + 1) * minutes * 60000)%Z.
Proof.
  apply (@time_ago_rounds_down (DashboardScreen.MkDate 1793000000000)
                               (DashboardScreen.MkDate 1792994600000)).
  - unfold DashboardScreen.valid. simpl. lia.
  - unfold DashboardScreen.valid. simpl. lia.
  - vm_compute. reflexivity.
  - simpl. lia.
Defined.

(** X13: for valid dates whose difference binary64 holds exactly, the date
    after now, [formatTimeAgo] shows minutes, never hours or days: a
    negative number of minutes, the text starting with a minus sign. *)
Theorem time_ago_of_future_date
        (now date : DashboardScreen.Date)
        (Hnow : DashboardScreen.valid now) (Hdate : DashboardScreen.valid date)
        (Hexact : DashboardScreen.exact now date)
        (Hfuture : (DashboardScreen.getTime now < DashboardScreen.getTime date)%Z) :
  exists n : Z,
    (n < 0)%Z /\
    DashboardScreen.formatTimeAgo now date
    = (DashboardScreen.number_to_string n ++ lit "m" ++ DashboardScreen.atras)%list /\
    hd_error (DashboardScreen.formatTimeAgo now date) = Some 45%N /\
    (n * 60000
     <= DashboardScreen.getTime now - DashboardScreen.getTime date
     < (n + 1) * 60000)%Z.
Proof.
  clear Hnow Hdate Hexact.
  unfold DashboardScreen.formatTimeAgo. cbv zeta.
  change (1000 * 60)%Z with 60000%Z.
  set (diff := (DashboardScreen.getTime now - DashboardScreen.getTime date)%Z) in *.
  assert (Hdiff : (diff < 0)%Z) by (unfold diff; lia).
  pose proof (Z.div_mod diff 60000 ltac:(lia)) as E1.
  pose proof (Z.mod_pos_bound diff 60000 ltac:(lia)) as B1.
  set (m := (diff / 60000)%Z) in *.
  assert (Hm : (m < 0)%Z) by lia.
  destruct (Z.ltb_spec m 60) as [H60 | H60]; [|lia].
  exists m. split; [exact Hm|]. split; [reflexivity|]. split; [|lia].
  destruct m as [|p|p]; try lia. reflexivity.
Qed.

Lemma time_ago_of_future_date_witness :
  exists n : Z,
    (n < 0)%Z /\
    DashboardScreen.formatTimeAgo (DashboardScreen.MkDate 1793000000000)
                                  (DashboardScreen.MkDate 1793259200000)
    = (DashboardScreen.number_to_string n ++ lit "m" ++ DashboardScreen.atras)%list /\
    hd_error (DashboardScreen.formatTimeAgo (DashboardScreen.MkDate 1793000000000)
                                            (DashboardScreen.MkDate 1793259200000))
    = Some 45%N /\
    (n * 60000 <= 1793000000000 - 1793259200000 < (n + 1) * 60000)%Z.
Proof.
  apply (@time_ago_of_future_date (DashboardScreen.MkDate 1793000000000)
                                  (DashboardScreen.MkDate 1793259200000)).
  - unfold DashboardScreen.valid. simpl. lia.
  - unfold DashboardScreen.valid. simpl. lia.
  - vm_compute. reflexivity.
  - simpl. lia.
Defined.

(** The dates of the sample activities: half an hour, an hour and ninety
    minutes back, and three days ahead. *)
Example scenario_time_ago :
  DashboardScreen.formatTimeAgo (DashboardScreen.MkDate 1793000000000)
                                (DashboardScreen.MkDate (1793000000000 - 1000 * 60 * 30))
  = (lit "30m" ++ DashboardScreen.atras)%list /\
  DashboardScreen.formatTimeAgo (DashboardScreen.MkDate 1793000000000)
                                (DashboardScreen.MkDate (1793000000000 - 1000 * 60 * 60))
  = (lit "1h" ++ DashboardScreen.atras)%list /\
  DashboardScreen.formatTimeAgo (DashboardScreen.MkDate 1793000000000)
                                (DashboardScreen.MkDate (1793000000000 - 1000 * 60 * 90))
  = (lit "1h" ++ DashboardScreen.atras)%list /\
  DashboardScreen.formatTimeAgo (DashboardScreen.MkDate 1793000000000)
                                (DashboardScreen.MkDate 1793259200000)
  = (lit "-4320m" ++ DashboardScreen.atras)%list.
Proof. repeat split; vm_compute; reflexivity. Qed.
